(** * Datalake worker: content-addressed blob storage

    A shallow embedding of [workers/datalake/src/blob.ts] and of the entry
    point of the worker (the router and [DatalakeWorker]).  The handlers are
    asynchronous TypeScript functions that talk to three collaborators: an R2
    bucket per location, a relational metadata store with the tables
    [blob.data] and [blob.blob], and the edge cache.  They are embedded as
    computations in a state-and-exception monad over a [World] that holds the
    three stores, the log of every external call, and an oracle that decides
    which external calls throw.

    An [await] is sequencing; a [Promise.all] of two promises runs both and
    rejects when either rejected.  Requests, and the files of one upload, are
    run one after the other. *)

From Stdlib Require Import ZArith String Ascii List Bool Lia DecimalString.
From stdpp Require Import base tactics option list gmap strings.

Local Open Scope string_scope.

(** ** Data model *)

Definition UUID := string.
Definition Location := string.
Definition bytes := list Byte.byte.

(** A row of [blob.data]: keyed by (hash, location). *)
Record DataRecord := mkData {
  data_hash : UUID;
  data_location : Location;
  data_filename : UUID;
  data_type : string;
  data_size : Z
}.

(** A row of [blob.blob]: keyed by (workspace, name), the key of the map that
    holds the table. *)
Record BlobRecord := mkBlob {
  blob_hash : UUID;
  blob_location : Location;
  blob_deleted : bool
}.

(** What [db.getBlob] returns: the blob row joined with its data row. *)
Record BlobWithDataRecord := mkBlobWithData {
  bd_hash : UUID;
  bd_location : Location;
  bd_deleted : bool;
  bd_filename : UUID;
  bd_size : Z;
  bd_type : string
}.

Record BlobMetadata := mkBlobMetadata {
  md_lastModified : Z;
  md_type : string;
  md_size : Z;
  md_name : string
}.

(** *** The bucket's objects *)

Record R2HTTPMetadata := mkHTTPMetadata {
  contentType : option string;
  cacheControl : option string;
  hm_lastModified : option Z
}.

Record R2Object := mkObject {
  obj_size : Z;
  obj_httpMetadata : option R2HTTPMetadata;
  obj_uploaded : Z;
  obj_httpEtag : string;
  obj_md5 : option bytes;
  obj_content : bytes
}.

(** [R2Range]: the union
    [{offset, length?} | {offset?, length} | {suffix}]. *)
Inductive R2Range :=
| RangeOffset (offset : Z) (length : option Z)
| RangeLength (offset : option Z) (length : Z)
| RangeSuffix (suffix : Z).

(** [R2ObjectBody]: the object, the range served and the bytes served. *)
Record R2ObjectBody := mkObjectBody {
  ob_object : R2Object;
  ob_range : option R2Range;
  ob_body : bytes
}.

(** *** Responses *)

(** One entry of the array answered by [handleUploadFormData]. *)
Inductive UploadOutcome :=
| OutMetadata (metadata : BlobMetadata)
| OutError (error : string).

Record UploadResult := mkUploadResult {
  key : string;
  outcome : UploadOutcome
}.

Inductive Body :=
| BodyNull
| BodyBytes (content : bytes)
| BodyError (status : Z) (message : string)
| BodyJson (result : list UploadResult)
| BodyHtml (text : string).

(** A [Headers] object, as the list of its entries; [set] replaces the entry
    of a name or appends a new one. *)
Definition Headers := list (string * string).

Fixpoint headers_set (h : Headers) (name value : string) : Headers :=
  match h with
  | [] => [(name, value)]
  | (n, v) :: rest =>
      if String.eqb n name then (n, value) :: rest
      else (n, v) :: headers_set rest name value
  end.

Fixpoint headers_get (h : Headers) (name : string) : option string :=
  match h with
  | [] => None
  | (n, v) :: rest => if String.eqb n name then Some v else headers_get rest name
  end.

Record Response := mkResponse {
  status : Z;
  headers : Headers;
  body : Body
}.

Definition ok (r : Response) : bool := (200 <=? status r)%Z && (status r <=? 299)%Z.

(** The reason phrase of a status; it is the [statusText] of a response and
    the message of itty-router's [error(status)]. *)
Definition reason (st : Z) : string :=
  if (st =? 200)%Z then "OK"
  else if (st =? 204)%Z then "No Content"
  else if (st =? 206)%Z then "Partial Content"
  else if (st =? 400)%Z then "Bad Request"
  else if (st =? 404)%Z then "Not Found"
  else if (st =? 500)%Z then "Internal Server Error"
  else "Unknown Error".

Definition statusText (r : Response) : string := reason (status r).

(** itty-router's [error(status, message?)] and [json(value)]. *)
Definition error (st : Z) (message : option string) : Response :=
  mkResponse st [("content-type", "application/json; charset=utf-8")]
    (BodyError st (default (reason st) message)).

Definition json (result : list UploadResult) : Response :=
  mkResponse 200 [("content-type", "application/json; charset=utf-8")] (BodyJson result).

Definition html (text : string) : Response :=
  mkResponse 200 [("content-type", "text/html")] (BodyHtml text).

(** *** Requests *)

Record File := mkFile {
  file_name : string;
  file_type : string;
  file_lastModified : Z;
  file_content : bytes
}.

Definition file_size (f : File) : Z := Z.of_nat (List.length (file_content f)).

(** A value of a [FormData]: a string field or a file. *)
Inductive FormValue :=
| FormString (value : string)
| FormFile (file : File).

(** The body of a request: a form, or one that does not parse as a form. *)
Inductive RequestBody :=
| NoBody
| FormBody (entries : list (string * FormValue))
| Malformed (message : string).

(** A [Request]: [range] is the [Range] header as the bucket reads it
    ([bytes=0-99] is offset 0 and length 100). *)
Record Request := mkRequest {
  method : string;
  origin : string;
  pathname : string;
  range : option R2Range;
  content_type : option string;
  payload : RequestBody
}.

Definition url (r : Request) : string := origin r ++ pathname r.

(** [WorkspaceRequest] and [BlobRequest]: the request with the fields that
    [withWorkspace] and [withBlob] set on it. *)
Record WorkspaceRequest := mkWorkspaceRequest {
  wr_request : Request;
  wr_workspace : string
}.

Record BlobRequest := mkBlobRequest {
  br_request : Request;
  br_workspace : string;
  br_name : string
}.

(** ** The world: stores, log and oracle *)

(** The external calls a handler makes. *)
Inductive Op :=
| OpBucketHead (location : Location) (filename : UUID)
| OpBucketGet (location : Location) (filename : UUID)
| OpBucketPut (location : Location) (filename : UUID)
| OpBucketDelete (location : Location) (filename : UUID)
| OpConnect
| OpGetData (hash : UUID) (location : Location)
| OpCreateData (hash : UUID) (location : Location)
| OpGetBlob (workspace name : string)
| OpCreateBlob (workspace name : string)
| OpDeleteBlob (workspace name : string)
| OpCommit
| OpCopyVideo (source workspace name : string)
| OpDeleteVideo (workspace name : string)
| OpCacheMatch (url : string)
| OpCachePut (url : string).

Inductive Level := LevelLog | LevelError.

Inductive Event :=
| Call (op : Op)
| Console (level : Level) (message : string).

Record World := mkWorld {
  data : list DataRecord;
  blobs : gmap (string * string) BlobRecord;
  objects : gmap (Location * UUID) R2Object;
  cache : gmap string Response;
  trace : list Event;
  (** how many identifiers [crypto.randomUUID] has handed out *)
  drawn : nat;
  (** the clock of the bucket *)
  now : Z;
  (** the oracle: which calls throw, with which message *)
  fails : Op → option string;
  (** the oracle: the identifiers [crypto.randomUUID] hands out *)
  entropy : nat → UUID
}.

Definition with_data (d : list DataRecord) (s : World) : World :=
  mkWorld d (blobs s) (objects s) (cache s) (trace s) (drawn s) (now s) (fails s) (entropy s).
Definition with_blobs (b : gmap (string * string) BlobRecord) (s : World) : World :=
  mkWorld (data s) b (objects s) (cache s) (trace s) (drawn s) (now s) (fails s) (entropy s).
Definition with_objects (o : gmap (Location * UUID) R2Object) (s : World) : World :=
  mkWorld (data s) (blobs s) o (cache s) (trace s) (drawn s) (now s) (fails s) (entropy s).
Definition with_cache (c : gmap string Response) (s : World) : World :=
  mkWorld (data s) (blobs s) (objects s) c (trace s) (drawn s) (now s) (fails s) (entropy s).
Definition with_trace (t : list Event) (s : World) : World :=
  mkWorld (data s) (blobs s) (objects s) (cache s) t (drawn s) (now s) (fails s) (entropy s).
Definition with_drawn (n : nat) (s : World) : World :=
  mkWorld (data s) (blobs s) (objects s) (cache s) (trace s) n (now s) (fails s) (entropy s).

Definition emit (e : Event) (s : World) : World := with_trace (trace s ++ [e]) s.

(** ** The monad of handlers *)

Inductive Result (A : Type) :=
| Ok (a : A)
| Throw (message : string).
Arguments Ok {A} a.
Arguments Throw {A} message.

Definition M (A : Type) : Type := World → Result A * World.

Definition ret {A} (a : A) : M A := fun s => (Ok a, s).
Definition throw {A} (message : string) : M A := fun s => (Throw message, s).
Definition bind {A B} (m : M A) (k : A → M B) : M B := fun s =>
  match m s with
  | (Ok a, s1) => k a s1
  | (Throw e, s1) => (Throw e, s1)
  end.

Notation "'let*' x ':=' m 'in' k" := (bind m (fun x => k))
  (at level 10, x pattern, m at level 100, k at level 200).
Notation "m ';;' k" := (bind m (fun _ => k))
  (at level 100, k at level 200, right associativity).

(** [try { m } catch (err) { h err }] *)
Definition try_catch {A} (m : M A) (h : string → M A) : M A := fun s =>
  match m s with
  | (Ok a, s1) => (Ok a, s1)
  | (Throw e, s1) => h e s1
  end.

(** [Promise.all([a, b])]: both promises are started and run to their end;
    the result rejects when one of them rejected. *)
Definition all2 {A B} (a : M A) (b : M B) : M (A * B) := fun s =>
  let (ra, s1) := a s in
  let (rb, s2) := b s1 in
  match ra, rb with
  | Ok x, Ok y => (Ok (x, y), s2)
  | Throw e, _ => (Throw e, s2)
  | _, Throw e => (Throw e, s2)
  end.

Definition console (level : Level) (message : string) : M unit :=
  fun s => (Ok tt, emit (Console level message) s).

(** An external call: logged, then thrown by the oracle or run. *)
Definition call {A} (op : Op) (run : World → A * World) : M A := fun s =>
  let s1 := emit (Call op) s in
  match fails s op with
  | Some message => (Throw message, s1)
  | None => let (a, s2) := run s1 in (Ok a, s2)
  end.

(** [crypto.randomUUID()] *)
Definition randomUUID : M UUID := fun s =>
  (Ok (entropy s (drawn s)), with_drawn (S (drawn s)) s).

Definition result_of {A} (m : M A) (s : World) : Result A := fst (m s).
Definition after {A} (m : M A) (s : World) : World := snd (m s).

(** ** What the worker imports *)

(** The constants of [./const], the encoding of [./encodings] and the
    primitives of the runtime ([crypto], [Date], [decodeURIComponent]) that
    the handlers use. *)
Class Runtime := {
  hashLimit : Z;
  defaultCacheControl : string;
  sha256 : bytes → bytes;
  md5 : bytes → bytes;
  toUUID : bytes → UUID;
  etagOf : bytes → string;
  toUTCString : Z → string;
  decodeURIComponent : string → option string;
  stringify : list UploadResult → string
}.

(** The bindings of the worker: the static configuration that assigns a
    workspace its location, whose bucket is a binding too. *)
Record Env := mkEnv {
  shardOf : string → Location
}.

(** What a handler receives in the place of [env]: the bindings, [undefined]
    when the router is called without them, or the [{ method, body }] object
    that [putBlob] passes there. *)
Inductive EnvArg :=
| Bindings (env : Env)
| Undefined
| Init (method : string) (body : RequestBody).

Record Storage := mkStorage {
  location : Location;
  bucket : Location
}.

Section Datalake.
Context {rt : Runtime}.

(** Modelled from the spec: [selectStorage] of [./storage], "a pure function
    of tenant identifier (and static configuration), total and
    deterministic"; the buckets are bindings of [env], so there is none to
    read off a value that is not the bindings. *)
Definition selectStorage (env : EnvArg) (workspace : string) : M Storage :=
  match env with
  | Bindings e => ret (mkStorage (shardOf e workspace) (shardOf e workspace))
  | _ => throw "TypeError: Cannot read properties of undefined"
  end.

(** *** The bucket of a location

    The abstract bucket of the spec, "streamed put/get/head/delete with
    byte-range reads and server-side checksum retrieval". *)

Definition slice (r : option R2Range) (content : bytes) : bytes :=
  let n := Z.of_nat (List.length content) in
  match r with
  | None => content
  | Some (RangeOffset o None) => drop (Z.to_nat o) content
  | Some (RangeOffset o (Some l)) => take (Z.to_nat l) (drop (Z.to_nat o) content)
  | Some (RangeLength None l) => take (Z.to_nat l) content
  | Some (RangeLength (Some o) l) => take (Z.to_nat l) (drop (Z.to_nat o) content)
  | Some (RangeSuffix k) => drop (Z.to_nat (n - k)) content
  end.

Definition bucket_head (b : Location) (filename : UUID) : M (option R2Object) :=
  call (OpBucketHead b filename) (fun s => (objects s !! (b, filename), s)).

(** [bucket.get(filename, { range })]: the range served is the range asked
    for, and [size] stays the size of the whole object. *)
Definition bucket_get (b : Location) (filename : UUID) (range : option R2Range)
  : M (option R2ObjectBody) :=
  call (OpBucketGet b filename) (fun s =>
    ((fun o => mkObjectBody o range (slice range (obj_content o))) <$> objects s !! (b, filename), s)).

Definition bucket_put (b : Location) (filename : UUID) (stream : bytes)
    (httpMetadata : R2HTTPMetadata) : M unit :=
  call (OpBucketPut b filename) (fun s =>
    (tt, with_objects (<[(b, filename) :=
           mkObject (Z.of_nat (List.length stream)) (Some httpMetadata) (now s)
                    (etagOf stream) (Some (md5 stream)) stream]> (objects s)) s)).

Definition bucket_delete (b : Location) (filename : UUID) : M unit :=
  call (OpBucketDelete b filename) (fun s =>
    (tt, with_objects (delete (b, filename) (objects s)) s)).

(** *** The metadata store ([./db]) *)

Definition has_key (hash : UUID) (loc : Location) (d : DataRecord) : bool :=
  String.eqb (data_hash d) hash && String.eqb (data_location d) loc.

Definition lookup_data (hash : UUID) (loc : Location) (table : list DataRecord)
  : option DataRecord :=
  find (has_key hash loc) table.

(** Modelled from the spec: [withPostgres] of [./db], which opens the
    connection to the metadata store and runs the callback with it; the
    connection string is a binding of [env]. *)
Definition withPostgres {A} (env : EnvArg) (fn : M A) : M A :=
  match env with
  | Bindings _ => call OpConnect (fun s => (tt, s)) ;; fn
  | _ => throw "TypeError: Cannot read properties of undefined"
  end.

(** Modelled from the spec: [db.getData], the Data row "keyed by (content
    hash, location/shard)", or [null]. *)
Definition db_getData (hash : UUID) (loc : Location) : M (option DataRecord) :=
  call (OpGetData hash loc) (fun s => (lookup_data hash loc (data s), s)).

(** Modelled from the spec: [db.createData], "creation is idempotent — a
    second attempt to create the same key is a no-op, not an error". *)
Definition db_createData (d : DataRecord) : M unit :=
  call (OpCreateData (data_hash d) (data_location d)) (fun s =>
    (tt, match lookup_data (data_hash d) (data_location d) (data s) with
         | Some _ => s
         | None => with_data (data s ++ [d]) s
         end)).

(** Modelled from the spec: [db.createBlob], "creating a Blob row for a name
    that already exists replaces its (hash, location, deleted=false)
    pointer". *)
Definition db_createBlob (workspace name : string) (hash : UUID) (loc : Location) : M unit :=
  call (OpCreateBlob workspace name) (fun s =>
    (tt, with_blobs (<[(workspace, name) := mkBlob hash loc false]> (blobs s)) s)).

(** Modelled from the spec: [db.deleteBlob], which "marks the Blob
    soft-deleted"; "it does not delete the Data row". *)
Definition db_deleteBlob (workspace name : string) : M unit :=
  call (OpDeleteBlob workspace name) (fun s =>
    (tt, with_blobs (alter (fun b => mkBlob (blob_hash b) (blob_location b) true)
                           (workspace, name) (blobs s)) s)).

Definition join_blob (table : list DataRecord) (b : BlobRecord) : option BlobWithDataRecord :=
  (fun d => mkBlobWithData (blob_hash b) (blob_location b) (blob_deleted b)
                           (data_filename d) (data_size d) (data_type d))
    <$> lookup_data (blob_hash b) (blob_location b) table.

(** Modelled from the spec: [db.getBlob], "resolves name → content pointer →
    physical object": the Blob row of the name with the Data row it points
    at, or [null]. *)
Definition db_getBlob (workspace name : string) : M (option BlobWithDataRecord) :=
  call (OpGetBlob workspace name) (fun s =>
    (blobs s !! (workspace, name) ≫= join_blob (data s), s)).

(** [sql.begin((sql) => [...])]: the queries commit together or not at all. *)
Definition rollback (s0 s1 : World) : World := with_blobs (blobs s0) (with_data (data s0) s1).

Definition sql_begin {A} (queries : M A) : M A := fun s =>
  match (let* a := queries in call OpCommit (fun s1 => (tt, s1)) ;; ret a) s with
  | (Ok a, s1) => (Ok a, s1)
  | (Throw e, s1) => (Throw e, rollback s s1)
  end.

(** *** Derived media ([./video]) *)

(** Modelled from the spec: [copyVideo] of [./video], the "copy into a
    media-processing collaborator", a step that can fail. *)
Definition copyVideo (source workspace name : string) : M unit :=
  call (OpCopyVideo source workspace name) (fun s => (tt, s)).

(** Modelled from the spec: [deleteVideo] of [./video], the "deletion of any
    derived media artifacts". *)
Definition deleteVideo (workspace name : string) : M unit :=
  call (OpDeleteVideo workspace name) (fun s => (tt, s)).

(** *** Hashing *)

Definition digestToUUID (digest : bytes) : UUID := toUUID digest.

(** Modelled from the spec: [getSha256] of [./hash], the digest of the
    stream under the fixed 256-bit algorithm, in "a fixed-length identifier
    (UUID-shaped, derived deterministically from the digest bytes)". *)
Definition getSha256 (stream : bytes) : M UUID := ret (toUUID (sha256 stream)).

Definition getUniqueFilename : M UUID := randomUUID.

Definition uploadLargeFile (b : Location) (stream : bytes) (filename : UUID)
    (httpMetadata : R2HTTPMetadata) : M UUID :=
  let digestFS := stream in
  let uploadFS := stream in
  all2 (ret (sha256 digestFS)) (bucket_put b filename uploadFS httpMetadata) ;;
  ret (digestToUUID (sha256 digestFS)).

(** ** Ingestion *)

Definition saveBlob (env : EnvArg) (stream : bytes) (size : Z) (type : string)
    (workspace name : string) (lastModified : Z) : M BlobMetadata :=
  let* st := selectStorage env workspace in
  let location := location st in
  let bucket := bucket st in
  let httpMetadata := mkHTTPMetadata (Some type) (Some defaultCacheControl) (Some lastModified) in
  let* filename := getUniqueFilename in
  if (size <=? hashLimit)%Z then
    let hashStream := stream in
    let uploadStream := stream in
    let* hash := getSha256 hashStream in
    let* data := db_getData hash location in
    match data with
    | Some _ =>
        db_createBlob workspace name hash location
    | None =>
        bucket_put bucket filename uploadStream httpMetadata ;;
        sql_begin (
          db_createData (mkData hash location filename type size) ;;
          db_createBlob workspace name hash location)
    end ;;
    ret (mkBlobMetadata lastModified type size name)
  else
    let* hash := uploadLargeFile bucket stream filename httpMetadata in
    let* data := db_getData hash location in
    match data with
    | Some _ =>
        all2 (bucket_delete bucket filename)
             (db_createBlob workspace name hash location) ;; ret tt
    | None =>
        sql_begin (
          db_createData (mkData hash location filename type size) ;;
          db_createBlob workspace name hash location)
    end ;;
    ret (mkBlobMetadata lastModified type size name).

(** ** Reconciliation of an out-of-band upload *)

Definition handleBlobUploaded (env : EnvArg) (workspace name : string) (filename : UUID)
  : M unit :=
  let* st := selectStorage env workspace in
  let location := location st in
  let bucket := bucket st in
  let* object := bucket_head bucket filename in
  match object ≫= (fun o => (fun hm => (o, hm)) <$> obj_httpMetadata o) with
  | None => throw "blob not found"
  | Some (object, httpMetadata) =>
      let* hash :=
        match obj_md5 object with
        | Some digest => ret (digestToUUID digest)
        | None => randomUUID
        end in
      withPostgres env (
        let* data := db_getData hash location in
        match data with
        | Some _ =>
            all2 (bucket_delete bucket filename)
                 (db_createBlob workspace name hash location) ;; ret tt
        | None =>
            let size := obj_size object in
            let type := default "application/octet-stream" (contentType httpMetadata) in
            sql_begin (
              db_createData (mkData hash location filename type size) ;;
              db_createBlob workspace name hash location)
        end)
  end.

(** ** Retrieval *)

(** [Number.prototype.toString] on an integer. *)
Definition toString (z : Z) : string := NilZero.string_of_int (Z.to_int z).

Definition getBlobURL (request : Request) (workspace name : string) : string :=
  let path := "/blob/" ++ workspace ++ "/" ++ name in
  origin request ++ path.

(** ['offset' in range ? range.offset : undefined], and likewise for
    [length] and [suffix]. *)
Definition range_offset (r : R2Range) : option Z :=
  match r with
  | RangeOffset o _ => Some o
  | RangeLength o _ => o
  | RangeSuffix _ => None
  end.

Definition range_length (r : R2Range) : option Z :=
  match r with
  | RangeOffset _ l => l
  | RangeLength _ l => Some l
  | RangeSuffix _ => None
  end.

Definition range_suffix (r : R2Range) : option Z :=
  match r with
  | RangeSuffix k => Some k
  | _ => None
  end.

Definition rangeHeader (range : R2Range) (size : Z) : string :=
  let offset := range_offset range in
  let length := range_length range in
  let suffix := range_suffix range in
  let start := match suffix with
               | Some k => (size - k)%Z
               | None => default 0%Z offset
               end in
  let end_ := match suffix with
              | Some _ => size
              | None => match length with
                        | Some l => (start + l)%Z
                        | None => size
                        end
              end in
  "bytes " ++ toString start ++ "-" ++ toString (end_ - 1)%Z ++ "/" ++ toString size.

Definition r2MetadataHeaders (head : R2Object) : Headers :=
  match obj_httpMetadata head with
  | Some httpMetadata =>
      [ ("Accept-Ranges", "bytes");
        ("Content-Length", toString (obj_size head));
        ("Content-Type", default EmptyString (contentType httpMetadata));
        ("Content-Security-Policy", "default-src 'none';");
        ("Cache-Control", default defaultCacheControl (cacheControl httpMetadata));
        ("Last-Modified", toUTCString (obj_uploaded head));
        ("ETag", obj_httpEtag head) ]
  | None =>
      [ ("Accept-Ranges", "bytes");
        ("Content-Length", toString (obj_size head));
        ("Content-Security-Policy", "default-src 'none';");
        ("Cache-Control", defaultCacheControl);
        ("Last-Modified", toUTCString (obj_uploaded head));
        ("ETag", obj_httpEtag head) ]
  end.

(** The edge cache ([caches.default] behind the [LoggedCache] of
    [./measure]), keyed by the URL of the request. *)
Definition cache_match (request : Request) : M (option Response) :=
  call (OpCacheMatch (url request)) (fun s => (cache s !! url request, s)).

Definition cache_put (request : Request) (response : Response) : M unit :=
  call (OpCachePut (url request)) (fun s =>
    (tt, with_cache (<[url request := response]> (cache s)) s)).

(** [ctx.waitUntil(promise)]: the promise is run, its rejection is not the
    handler's. *)
Definition waitUntil (promise : M unit) : M unit :=
  try_catch promise (fun _ => ret tt).

Definition handleBlobGet (request : BlobRequest) (env : EnvArg) : M Response :=
  let workspace := br_workspace request in
  let name := br_name request in
  let* cached := cache_match (br_request request) in
  match cached with
  | Some cached =>
      console LevelLog "cache hit" ;;
      ret cached
  | None =>
      let* st := selectStorage env workspace in
      let bucket := bucket st in
      let* blob := withPostgres env (db_getBlob workspace name) in
      match blob with
      | None => ret (error 404 None)
      | Some blob =>
          if bd_deleted blob then ret (error 404 None) else
          let range := range (br_request request) in
          let* object := bucket_get bucket (bd_filename blob) range in
          match object with
          | None => ret (error 404 None)
          | Some object =>
              let size := obj_size (ob_object object) in
              let headers := r2MetadataHeaders (ob_object object) in
              let headers :=
                match range, ob_range object with
                | Some _, Some r => headers_set headers "Content-Range" (rangeHeader r size)
                | _, _ => headers
                end in
              let length := ob_range object ≫= range_length in
              let status :=
                match length with
                | Some l => if (l <? size)%Z then 206%Z else 200%Z
                | None => 200%Z
                end in
              let response := mkResponse status headers (BodyBytes (ob_body object)) in
              (if (status =? 200)%Z
               then waitUntil (cache_put (br_request request) response)
               else ret tt) ;;
              ret response
          end
      end
  end.

Definition handleBlobHead (request : BlobRequest) (env : EnvArg) : M Response :=
  let workspace := br_workspace request in
  let name := br_name request in
  let* st := selectStorage env workspace in
  let bucket := bucket st in
  let* blob := withPostgres env (db_getBlob workspace name) in
  match blob with
  | None => ret (error 404 None)
  | Some blob =>
      if bd_deleted blob then ret (error 404 None) else
      let* head := bucket_head bucket (bd_filename blob) in
      match head with
      | None => ret (error 404 None)
      | Some head =>
          match obj_httpMetadata head with
          | None => ret (error 404 None)
          | Some _ => ret (mkResponse 200 (r2MetadataHeaders head) BodyNull)
          end
      end
  end.

Definition handleBlobDelete (request : BlobRequest) (env : EnvArg) : M Response :=
  let workspace := br_workspace request in
  let name := br_name request in
  try_catch
    (withPostgres env
       (all2 (db_deleteBlob workspace name) (deleteVideo workspace name)) ;;
     ret (mkResponse 204 [] BodyNull))
    (fun message =>
       console LevelError ("failed to delete blob:" ++ message) ;;
       ret (error 500 None)).

(** ** Form-data upload *)

(** [String.prototype.includes] *)
Fixpoint includes (needle hay : string) : bool :=
  String.prefix needle hay ||
  match hay with
  | EmptyString => false
  | String _ rest => includes needle rest
  end.

(** The entries whose value is an object, that is a file. *)
Fixpoint form_files (entries : list (string * FormValue)) : list (File * string) :=
  match entries with
  | [] => []
  | (key, FormFile file) :: rest => (file, key) :: form_files rest
  | (_, FormString _) :: rest => form_files rest
  end.

(** [Promise.all(files.map(async f))] for an [f] that catches what it throws. *)
Fixpoint mapM {A B} (f : A → M B) (l : list A) : M (list B) :=
  match l with
  | [] => ret []
  | x :: rest =>
      let* y := f x in
      let* ys := mapM f rest in
      ret (y :: ys)
  end.

(** The callback that [handleUploadFormData] maps over the files. *)
Definition uploadFile (request : WorkspaceRequest) (env : EnvArg) (entry : File * string)
  : M UploadResult :=
  let '(file, key) := entry in
  let workspace := wr_workspace request in
  let name := file_name file in
  let type := file_type file in
  let lastModified := file_lastModified file in
  try_catch
    (let* metadata :=
       withPostgres env
         (saveBlob env (file_content file) (file_size file) type workspace name lastModified) in
     (if String.prefix "video/" type then
        let blobURL := getBlobURL (wr_request request) workspace name in
        copyVideo blobURL workspace name
      else ret tt) ;;
     ret (mkUploadResult key (OutMetadata metadata)))
    (fun error =>
       console LevelError ("failed to upload blob: " ++ error) ;;
       ret (mkUploadResult key (OutError error))).

Definition handleUploadFormData (request : WorkspaceRequest) (env : EnvArg) : M Response :=
  let contentType := content_type (wr_request request) in
  if match contentType with
     | None => true
     | Some contentType => negb (includes "multipart/form-data" contentType)
     end
  then
    console LevelError "expected multipart/form-data" ;;
    ret (error 400 (Some "expected multipart/form-data"))
  else
    match payload (wr_request request) with
    | FormBody formData =>
        let files := form_files formData in
        let* result := mapM (uploadFile request env) files in
        ret (json result)
    | NoBody =>
        console LevelError "failed to parse form data" ;;
        ret (error 400 (Some "failed to parse form data"))
    | Malformed _ =>
        console LevelError "failed to parse form data" ;;
        ret (error 400 (Some "failed to parse form data"))
    end.

(** ** The router and the worker entry point ([index.ts]) *)

(** The handlers of the modules [./image], [./video], [./sign],
    [./multipart] and [./s3], by name. *)
Context (collaborator : string → BlobRequest → EnvArg → M Response).

Definition withWorkspace (request : Request) (workspace : option string)
  : M (Response + WorkspaceRequest) :=
  match workspace with
  | None => ret (inl (error 400 (Some "Missing workspace")))
  | Some EmptyString => ret (inl (error 400 (Some "Missing workspace")))
  | Some w =>
      match decodeURIComponent w with
      | Some w' => ret (inr (mkWorkspaceRequest request w'))
      | None => throw "URIError: URI malformed"
      end
  end.

Definition withBlob (request : Request) (workspace name : option string)
  : M (Response + BlobRequest) :=
  match workspace with
  | None => ret (inl (error 400 (Some "Missing workspace")))
  | Some EmptyString => ret (inl (error 400 (Some "Missing workspace")))
  | Some w =>
      match name with
      | None => ret (inl (error 400 (Some "Missing blob name")))
      | Some EmptyString => ret (inl (error 400 (Some "Missing blob name")))
      | Some n =>
          match decodeURIComponent w, decodeURIComponent n with
          | Some w', Some n' => ret (inr (mkBlobRequest request w' n'))
          | _, _ => throw "URIError: URI malformed"
          end
      end
  end.

(** The path of a request, cut at its slashes. *)
Fixpoint segments_from (current : string) (path : string) : list string :=
  match path with
  | EmptyString => [current]
  | String c rest =>
      if Ascii.eqb c "/"%char then current :: segments_from EmptyString rest
      else segments_from (current ++ String c EmptyString) rest
  end.

Definition segments (path : string) : list string := segments_from EmptyString path.

(** A segment of a route: a literal or a parameter [:name]. *)
Inductive Seg :=
| Lit (text : string)
| Param (name : string).

(** A route matches a path whose segments are its literals and, for its
    parameters, non-empty; slashes may trail.  The result binds the
    parameters. *)
Fixpoint match_segments (pattern : list Seg) (segs : list string)
  : option (list (string * string)) :=
  match pattern, segs with
  | [], rest => if forallb (String.eqb EmptyString) rest then Some [] else None
  | Lit l :: pattern', seg :: rest =>
      if String.eqb l seg then match_segments pattern' rest else None
  | Param p :: pattern', seg :: rest =>
      if String.eqb seg EmptyString then None
      else (fun params => (p, seg) :: params) <$> match_segments pattern' rest
  | _ :: _, [] => None
  end.

Definition match_route (pattern : list Seg) (path : string) : option (list (string * string)) :=
  match segments path with
  | EmptyString :: segs => match_segments pattern segs
  | _ => None
  end.

Definition param (params : list (string * string)) (name : string) : option string :=
  headers_get params name.

(** What a route runs after its middleware. *)
Inductive Target :=
| ToBlobGet
| ToBlobHead
| ToBlobDelete
| ToUploadFormData
| ToCollaborator (handler : string)
| ToBanner
| ToNotFound.

Record Route := mkRoute {
  route_method : string;
  route_path : option (list Seg);
  route_target : Target
}.

Definition blobPath (prefix : list string) (suffix : list string) : option (list Seg) :=
  Some (map Lit prefix ++ [Param "workspace"; Param "name"] ++ map Lit suffix)%list.

Definition routes : list Route :=
  [ mkRoute "GET" (blobPath ["blob"] []) ToBlobGet;
    mkRoute "HEAD" (blobPath ["blob"] []) ToBlobHead;
    mkRoute "DELETE" (blobPath ["blob"] []) ToBlobDelete;
    mkRoute "GET"
      (Some [Lit "image"; Param "transform"; Param "workspace"; Param "name"])
      (ToCollaborator "handleImageGet");
    mkRoute "GET" (blobPath ["video"] ["meta"]) (ToCollaborator "handleVideoMetaGet");
    mkRoute "POST" (Some [Lit "upload"; Lit "form-data"; Param "workspace"]) ToUploadFormData;
    mkRoute "POST" (blobPath ["upload"; "signed-url"] []) (ToCollaborator "handleSignCreate");
    mkRoute "PUT" (blobPath ["upload"; "signed-url"] []) (ToCollaborator "handleSignComplete");
    mkRoute "DELETE" (blobPath ["upload"; "signed-url"] []) (ToCollaborator "handleSignAbort");
    mkRoute "POST" (blobPath ["upload"; "multipart"] [])
      (ToCollaborator "handleMultipartUploadStart");
    mkRoute "POST" (blobPath ["upload"; "multipart"] ["part"])
      (ToCollaborator "handleMultipartUploadPart");
    mkRoute "POST" (blobPath ["upload"; "multipart"] ["complete"])
      (ToCollaborator "handleMultipartUploadComplete");
    mkRoute "POST" (blobPath ["upload"; "multipart"] ["abort"])
      (ToCollaborator "handleMultipartUploadAbort");
    mkRoute "POST" (blobPath ["upload"; "s3"] []) (ToCollaborator "handleS3Blob");
    mkRoute "ALL" (Some []) ToBanner;
    mkRoute "ALL" None ToNotFound ].

(** The first route of the method whose path matches, with its parameters. *)
Fixpoint find_route (rs : list Route) (method path : string)
  : option (Target * list (string * string)) :=
  match rs with
  | [] => None
  | r :: rest =>
      if String.eqb (route_method r) method || String.eqb (route_method r) "ALL" then
        match route_path r with
        | None => Some (route_target r, [])
        | Some pattern =>
            match match_route pattern path with
            | Some params => Some (route_target r, params)
            | None => find_route rest method path
            end
        end
      else find_route rest method path
  end.

Definition dquote : string := String (ascii_of_nat 34) EmptyString.

Definition banner : string :=
  "Huly&reg; Datalake&trade; <a href=" ++ dquote ++ "https://huly.io" ++ dquote
  ++ ">https://huly.io</a>
      &copy; 2024 <a href=" ++ dquote ++ "https://hulylabs.com" ++ dquote ++ ">Huly Labs</a>".

Definition viaBlob (handler : BlobRequest → EnvArg → M Response)
    (request : Request) (params : list (string * string)) (env : EnvArg) : M Response :=
  let* r := withBlob request (param params "workspace") (param params "name") in
  match r with
  | inl response => ret response
  | inr request' => handler request' env
  end.

(** [router.fetch(request, env, ctx)] *)
Definition router_fetch (request : Request) (env : EnvArg) : M Response :=
  match find_route routes (method request) (pathname request) with
  | Some (ToBlobGet, params) => viaBlob handleBlobGet request params env
  | Some (ToBlobHead, params) => viaBlob handleBlobHead request params env
  | Some (ToBlobDelete, params) => viaBlob handleBlobDelete request params env
  | Some (ToCollaborator h, params) => viaBlob (collaborator h) request params env
  | Some (ToUploadFormData, params) =>
      let* r := withWorkspace request (param params "workspace") in
      match r with
      | inl response => ret response
      | inr request' => handleUploadFormData request' env
      end
  | Some (ToBanner, _) => ret (html banner)
  | Some (ToNotFound, _) => ret (error 404 None)
  | None => ret (error 404 None)
  end.

(** [Response.arrayBuffer()] *)
Definition arrayBuffer (response : Response) : bytes :=
  match body response with
  | BodyNull => []
  | BodyBytes content => content
  | BodyError _ message => list_byte_of_string message
  | BodyJson result => list_byte_of_string (stringify result)
  | BodyHtml text => list_byte_of_string text
  end.

(** [DatalakeWorker.fetch]: the external HTTP surface. *)
Definition fetch (env : Env) (request : Request) : M Response :=
  try_catch (router_fetch request (Bindings env))
            (fun message => ret (error 500 (Some message))).

(** [DatalakeWorker.getBlob] *)
Definition getBlob (workspace name : string) : M bytes :=
  let request :=
    mkRequest "GET" "https://datalake" ("/blob/" ++ workspace ++ "/" ++ name) None None NoBody in
  let* response := router_fetch request Undefined in
  if negb (ok response) then
    console LevelError ("datalake error: " ++ statusText response) ;;
    throw ("Failed to fetch blob: " ++ statusText response)
  else
    ret (arrayBuffer response).

(** [DatalakeWorker.putBlob] *)
Definition putBlob (workspace name : string) (data : bytes) (type : string) : M unit :=
  let request :=
    mkRequest "GET" "https://datalake" ("/upload/form-data/" ++ workspace) None None NoBody in
  let* lastModified := (fun s => (Ok (now s), s)) in
  let blob := mkFile name type lastModified data in
  let body := FormBody [("file", FormFile blob)] in
  let* response := router_fetch request (Init "POST" body) in
  if negb (ok response) then
    console LevelError ("datalake error: " ++ statusText response) ;;
    throw ("Failed to fetch blob: " ++ statusText response)
  else
    ret tt.

(** ** Vocabulary of the statements *)

(** The identifier under which the ingestion engine files a content. *)
Definition contentHash (stream : bytes) : UUID := toUUID (sha256 stream).

(** The object that [bucket.put] leaves in the bucket. *)
Definition putObject (stream : bytes) (type : string) (lastModified : Z) (s : World) : R2Object :=
  mkObject (Z.of_nat (List.length stream))
    (Some (mkHTTPMetadata (Some type) (Some defaultCacheControl) (Some lastModified)))
    (now s) (etagOf stream) (Some (md5 stream)) stream.

(** The rows of [blob.data] under a key, and the table having a primary key. *)
Definition rows_of (hash : UUID) (loc : Location) (table : list DataRecord) : list DataRecord :=
  List.filter (has_key hash loc) table.

Definition primary_key (table : list DataRecord) : Prop :=
  ∀ hash loc, (List.length (rows_of hash loc table) ≤ 1)%nat.


(** No external call throws. *)
Definition quiet (s : World) : Prop := ∀ op, fails s op = None.

(** The metadata store, the bucket and the cache are as they were. *)
Definition same_stores (s s' : World) : Prop :=
  data s' = data s ∧ blobs s' = blobs s ∧ objects s' = objects s ∧ cache s' = cache s.

(** A segment of a path: not empty and without a slash. *)
Fixpoint slashless (s : string) : bool :=
  match s with
  | EmptyString => true
  | String c rest => negb (Ascii.eqb c "/"%char) && slashless rest
  end.

Definition segment (s : string) : bool := negb (String.eqb s EmptyString) && slashless s.

End Datalake.

(** ** A concrete deployment for the examples

    One location, a hash limit of sixteen bytes, and a digest and an encoding
    that are injective, so that equal identifiers mean equal content. *)
Module Demo.

Definition runtime : Runtime := {|
  hashLimit := 16;
  defaultCacheControl := "public, max-age=31536000, immutable";
  sha256 := fun content => content;
  md5 := fun content => content;
  toUUID := string_of_list_byte;
  etagOf := fun content => string_of_list_byte content;
  toUTCString := fun t => NilZero.string_of_int (Z.to_int t);
  decodeURIComponent := Some;
  stringify := fun result => NilZero.string_of_int (Z.to_int (Z.of_nat (List.length result)))
|}.

Definition env : Env := mkEnv (fun _ => "weur").

Definition no_handler (h : string) (request : BlobRequest) (e : EnvArg) : M Response :=
  ret (error 500 (Some h)).

Definition identifiers (n : nat) : UUID :=
  "file-" ++ NilZero.string_of_int (Z.to_int (Z.of_nat n)).

(** The empty deployment, in which no call throws. *)
Definition world0 : World :=
  mkWorld [] ∅ ∅ ∅ [] 0 1700000000 (fun _ => None) identifiers.

Definition with_fails (f : Op → option string) (s : World) : World :=
  mkWorld (data s) (blobs s) (objects s) (cache s) (trace s) (drawn s) (now s) f (entropy s).

Definition hello : bytes := list_byte_of_string "hello-huly".
Definition twenty : bytes := list_byte_of_string "hello-huly-hello-huly".
Definition thousand : bytes := repeat Byte.x61 1000.

Definition formRequest (entries : list (string * FormValue)) : Request :=
  mkRequest "POST" "https://datalake" "/upload/form-data/ws" None
    (Some "multipart/form-data; boundary=x") (FormBody entries).

Definition blobRequest (method name : string) (range : option R2Range) : BlobRequest :=
  mkBlobRequest
    (mkRequest method "https://datalake" ("/blob/ws/" ++ name) range None NoBody) "ws" name.

Definition http (request : Request) : M Response := @fetch runtime no_handler env request.

Definition ingest (content : bytes) (type name : string) : M BlobMetadata :=
  @saveBlob runtime (Bindings env) content (Z.of_nat (List.length content)) type "ws" name 7.

(** A 1000-byte object stored as [big.bin]. *)
Definition stored1000 : World :=
  after (ingest thousand "application/octet-stream" "big.bin") world0.

(** [a.txt] uploaded, then read once, then deleted. *)
Definition helloFile : File := mkFile "a.txt" "text/plain" 7 hello.
Definition posted : World := after (http (formRequest [("file", FormFile helloFile)])) world0.

(** An object written to the bucket out of band, without a checksum. *)
Definition uploadedObject : R2Object :=
  mkObject 10 (Some (mkHTTPMetadata (Some "text/plain") None None)) 1700000000 "etag-1" None hello.

Definition outOfBand : World := with_objects {[ ("weur", "up-1") := uploadedObject ]} world0.


Definition reconciledObject : R2Object :=
  mkObject 21 (Some (mkHTTPMetadata (Some "text/plain") None None)) 1700000000 "etag-2"
    (Some twenty) twenty.



(** A world whose media collaborator refuses the copy. *)
Definition copyRefused (op : Op) : option string :=
  match op with
  | OpCopyVideo _ _ _ => Some "stream: copy failed"
  | _ => None
  end.

Definition copyFails : World := with_fails copyRefused world0.

Definition clip : File := mkFile "clip.mp4" "video/mp4" 7 hello.

(** A world whose metadata store refuses the pointer of [bad.txt]. *)
Definition badRefused (op : Op) : option string :=
  match op with
  | OpCreateBlob _ "bad.txt" => Some "db: write failed"
  | _ => None
  end.

Definition oneFails : World := with_fails badRefused world0.

Definition batch : list (string * FormValue) :=
  [ ("first", FormFile (mkFile "bad.txt" "text/plain" 7 hello));
    ("note", FormString "two files");
    ("second", FormFile (mkFile "good.txt" "text/plain" 7 twenty)) ].

(** A blob whose object carries no HTTP metadata. *)
Definition bare : World :=
  mkWorld [mkData "digest-1" "weur" "key-1" "text/plain" 10]
    {[ ("ws", "bare.bin") := mkBlob "digest-1" "weur" false ]}
    {[ ("weur", "key-1") := mkObject 10 None 1700000000 "etag-3" None hello ]}
    ∅ [] 0 1700000000 (fun _ => None) identifiers.

(** The response that the cache holds for [a.txt] once it was read. *)
Definition cachedHello : Response :=
  mkResponse 200
    [ ("Accept-Ranges", "bytes");
      ("Content-Length", "10");
      ("Content-Type", "text/plain");
      ("Content-Security-Policy", "default-src 'none';");
      ("Cache-Control", "public, max-age=31536000, immutable");
      ("Last-Modified", "1700000000");
      ("ETag", "hello-huly") ]
    (BodyBytes hello).

(** An object written out of band, with its checksum. *)
Definition withChecksum : World :=
  with_objects {[ ("weur", "up-3") := reconciledObject ]} world0.

(** A world whose metadata store refuses to commit. *)
Definition commitRefused (op : Op) : option string :=
  match op with
  | OpCommit => Some "db: commit failed"
  | _ => None
  end.

Definition commitFails : World := with_fails commitRefused world0.

(** A world whose metadata store refuses the lookup of a Data row. *)
Definition lookupRefused (op : Op) : option string :=
  match op with
  | OpGetData _ _ => Some "db: read failed"
  | _ => None
  end.

Definition lookupFails : World := with_fails lookupRefused world0.

(** The runtime whose [decodeURIComponent] refuses every escape. *)
Definition strict : Runtime := {|
  hashLimit := 16;
  defaultCacheControl := "public, max-age=31536000, immutable";
  sha256 := fun content => content;
  md5 := fun content => content;
  toUUID := string_of_list_byte;
  etagOf := fun content => string_of_list_byte content;
  toUTCString := fun t => NilZero.string_of_int (Z.to_int t);
  decodeURIComponent := fun s => if includes "%" s then None else Some s;
  stringify := fun result => NilZero.string_of_int (Z.to_int (Z.of_nat (List.length result)))
|}.

Definition plainRequest (method path : string) : Request :=
  mkRequest method "https://datalake" path None None NoBody.

End Demo.

(** * Properties *)

Local Open Scope list_scope.

Section Properties.
Context {rt : Runtime}.

(** Running a handler symbolically: unfold the monad, then follow the
    oracle and the lookups case by case. *)
Ltac run :=
  unfold result_of, after, saveBlob, handleBlobUploaded, handleBlobDelete, handleBlobHead,
    handleBlobGet, uploadLargeFile, digestToUUID, contentHash, putObject, withPostgres,
    selectStorage, getUniqueFilename, randomUUID, getSha256, db_getData, db_createData,
    db_createBlob, db_deleteBlob, db_getBlob, sql_begin, bucket_put, bucket_delete,
    bucket_head, bucket_get, copyVideo, deleteVideo, cache_match, cache_put, waitUntil,
    console, try_catch, all2, call, bind, ret, throw in *;
  simpl in *.

Ltac oracle :=
  repeat match goal with
  | H : quiet ?s |- context [fails ?s ?op] => rewrite (H op); simpl
  | H : fails ?s ?op = _ |- context [fails ?s ?op] => rewrite H; simpl
  | H : lookup_data ?h ?l ?t = _ |- context [lookup_data ?h ?l ?t] => rewrite H; simpl
  | |- context [match fails ?s ?op with _ => _ end] => destruct (fails s op) eqn:?; simpl
  | |- context [match lookup_data ?h ?l ?t with _ => _ end] =>
      destruct (lookup_data h l t) eqn:?; simpl
  end.

Ltac traces := rewrite <- ?app_assoc; simpl; eauto.

Ltac members :=
  intros; repeat (rewrite in_app_iff in *; simpl in * ); intuition congruence.


(** ** The data table *)

Lemma lookup_data_rows hash loc table :
  lookup_data hash loc table = None ↔ rows_of hash loc table = [].
Proof.
  unfold lookup_data, rows_of. induction table as [|d table IH]; simpl; [done|].
  destruct (has_key hash loc d); [split; discriminate | exact IH].
Qed.

Lemma has_key_own d : has_key (data_hash d) (data_location d) d = true.
Proof. unfold has_key. by rewrite !String.eqb_refl. Qed.

Lemma rows_of_app hash loc t1 t2 :
  rows_of hash loc (t1 ++ t2) = rows_of hash loc t1 ++ rows_of hash loc t2.
Proof. apply List.filter_app. Qed.

Lemma lookup_data_snoc hash loc table d :
  has_key hash loc d = true → is_Some (lookup_data hash loc (table ++ [d])).
Proof.
  intros Hd. destruct (lookup_data hash loc (table ++ [d])) eqn:E; [eauto|].
  apply lookup_data_rows in E. rewrite rows_of_app in E. unfold rows_of at 2 in E.
  simpl in E. rewrite Hd in E. by destruct (rows_of hash loc table).
Qed.

(** ** Ingestion *)

(** What a successful [saveBlob] leaves in the metadata store, on either
    path. *)
Lemma saveBlob_ok env stream size type workspace name lastModified s md :
  result_of (saveBlob (Bindings env) stream size type workspace name lastModified) s = Ok md →
  let hash := contentHash stream in
  let loc := shardOf env workspace in
  let s' := after (saveBlob (Bindings env) stream size type workspace name lastModified) s in
  md = mkBlobMetadata lastModified type size name ∧
  blobs s' = <[(workspace, name) := mkBlob hash loc false]> (blobs s) ∧
  data s' = match lookup_data hash loc (data s) with
            | Some _ => data s
            | None => data s ++ [mkData hash loc (entropy s (drawn s)) type size]
            end.
Proof.
  intros H hash loc s'. subst hash loc s'. revert H. run.
  destruct (size <=? hashLimit)%Z; simpl; oracle; intros H; by simplify_eq.
Qed.

(** The oracle is the same after an ingestion. *)
Lemma ingest_oracle env stream size type workspace name lastModified s :
  fails (after (withPostgres env
                  (saveBlob env stream size type workspace name lastModified)) s) = fails s.
Proof.
  destruct env as [e| |]; [|done..]. run.
  destruct (size <=? hashLimit)%Z; simpl; oracle; reflexivity.
Qed.


(** C2: two successful ingestions of the same bytes under two names of one
    workspace leave two Blob rows, both pointing at the (hash, location) of
    the content, and exactly one Data row under that key; the second
    ingestion leaves the data table as the first one left it. *)
Theorem saveBlob_twice env stream size1 size2 type1 type2 workspace name1 name2 lm1 lm2
    s md1 md2 :
  name1 ≠ name2 →
  primary_key (data s) →
  let first := saveBlob (Bindings env) stream size1 type1 workspace name1 lm1 in
  let second := saveBlob (Bindings env) stream size2 type2 workspace name2 lm2 in
  result_of first s = Ok md1 →
  result_of second (after first s) = Ok md2 →
  let hash := contentHash stream in
  let loc := shardOf env workspace in
  let s2 := after second (after first s) in
  blobs s2 !! (workspace, name1) = Some (mkBlob hash loc false) ∧
  blobs s2 !! (workspace, name2) = Some (mkBlob hash loc false) ∧
  List.length (rows_of hash loc (data s2)) = 1%nat ∧
  data s2 = data (after first s).
Proof.
  intros Hne Hpk first second H1 H2 hash loc s2.
  destruct (saveBlob_ok _ _ _ _ _ _ _ _ _ H1) as (_ & Hb1 & Hd1).
  destruct (saveBlob_ok _ _ _ _ _ _ _ _ _ H2) as (_ & Hb2 & Hd2).
  fold first in Hb1, Hd1. fold second in Hb2, Hd2. fold hash loc in Hb1, Hd1, Hb2, Hd2.
  fold s2 in Hb2, Hd2.
  assert (Hfound : is_Some (lookup_data hash loc (data (after first s)))).
  { rewrite Hd1. destruct (lookup_data hash loc (data s)) eqn:E; [by rewrite E|].
    apply lookup_data_snoc. apply (has_key_own (mkData hash loc _ _ _)). }
  destruct Hfound as [d Hfound]. rewrite Hfound in Hd2.
  repeat split.
  - rewrite Hb2, Hb1. rewrite lookup_insert_ne by congruence. apply lookup_insert_eq.
  - rewrite Hb2. apply lookup_insert_eq.
  - rewrite Hd2, Hd1. destruct (lookup_data hash loc (data s)) eqn:E.
    + specialize (Hpk hash loc).
      destruct (rows_of hash loc (data s)) as [|x [|y l]] eqn:R; simpl in *; [|done|lia].
      apply lookup_data_rows in R. congruence.
    + apply lookup_data_rows in E. rewrite rows_of_app, E. unfold rows_of. simpl.
      by rewrite (has_key_own (mkData hash loc _ _ _)).
  - done.
Qed.



(** ** Reconciliation *)

(** C1, as the code has it: when the head of the bucket yields the object
    with its metadata but without a checksum and no call throws, the
    reconciliation succeeds; the identifier just drawn from
    [crypto.randomUUID] stands for the hash, in the Blob row of the name and
    in the Data row recorded for the object. *)
Theorem handleBlobUploaded_without_checksum env workspace name filename s o hm :
  let loc := shardOf env workspace in
  let id := entropy s (drawn s) in
  let m := handleBlobUploaded (Bindings env) workspace name filename in
  objects s !! (loc, filename) = Some o →
  obj_httpMetadata o = Some hm →
  obj_md5 o = None →
  quiet s →
  lookup_data id loc (data s) = None →
  result_of m s = Ok tt ∧
  blobs (after m s) !! (workspace, name) = Some (mkBlob id loc false) ∧
  data (after m s) =
    data s ++ [mkData id loc filename
                 (default "application/octet-stream" (contentType hm)) (obj_size o)].
Proof.
  intros loc id m Ho Hhm Hmd5 Hq Hd. subst loc id m. run. oracle.
  rewrite Ho. simpl. rewrite Hhm. simpl. rewrite Hmd5. simpl. oracle.
  repeat split. apply lookup_insert_eq.
Qed.

(** ** Form-data upload *)






(** C7, as the code has it: for a file of a [video/] type whose ingestion
    succeeded, the upload calls the copy to the media collaborator and
    awaits it inside the [try] of the file.  The copy changes neither table.
    When it goes through, the entry of the file reports the metadata; when it
    throws, the entry of the file reports the error of the copy. *)
Theorem uploadFile_video request env file k s md :
  let workspace := wr_workspace request in
  let name := file_name file in
  let ingest :=
    withPostgres env (saveBlob env (file_content file) (file_size file) (file_type file)
                        workspace name (file_lastModified file)) in
  let copy := OpCopyVideo (getBlobURL (wr_request request) workspace name) workspace name in
  let upload := uploadFile request env (file, k) in
  String.prefix "video/" (file_type file) = true →
  result_of ingest s = Ok md →
  In (Call copy) (trace (after upload s)) ∧
  data (after upload s) = data (after ingest s) ∧
  blobs (after upload s) = blobs (after ingest s) ∧
  (fails s copy = None → result_of upload s = Ok (mkUploadResult k (OutMetadata md))) ∧
  (∀ e, fails s copy = Some e → result_of upload s = Ok (mkUploadResult k (OutError e))).
Proof.
  intros workspace name ingest copy upload Hvideo Hing.
  assert (Hf : fails (after ingest s) = fails s) by apply ingest_oracle.
  subst upload. unfold uploadFile, result_of, after in *. fold workspace name ingest.
  rewrite Hvideo. unfold try_catch, bind, copyVideo, call, console, ret. fold copy.
  destruct (ingest s) as [r s1]. simpl in *. subst r. rewrite Hf.
  destruct (fails s copy) eqn:E; simpl; repeat split; try members;
    try (intros; simplify_eq; done).
Qed.

(** ** Retrieval *)


(** C10: when the connection, the soft delete and the deletion of the
    derived media do not throw, [handleBlobDelete] answers 204 with an empty
    body, whatever the blob table holds for the name; a name without a row
    is not answered with not-found. *)
Theorem handleBlobDelete_unknown_name env request s :
  fails s OpConnect = None →
  fails s (OpDeleteBlob (br_workspace request) (br_name request)) = None →
  fails s (OpDeleteVideo (br_workspace request) (br_name request)) = None →
  result_of (handleBlobDelete request (Bindings env)) s = Ok (mkResponse 204 [] BodyNull).
Proof. intros Hc Hd Hv. run. by oracle. Qed.


(** What a GET serves from the bucket: the bytes of the range, a
    [Content-Length] that is the size of the whole object, and 206 exactly
    when the range carries a length below that size. *)
Lemma handleBlobGet_served env request s blob o :
  let workspace := br_workspace request in
  let name := br_name request in
  let loc := shardOf env workspace in
  let asked := range (br_request request) in
  fails s (OpCacheMatch (url (br_request request))) = None →
  cache s !! url (br_request request) = None →
  fails s OpConnect = None →
  fails s (OpGetBlob workspace name) = None →
  blobs s !! (workspace, name) ≫= join_blob (data s) = Some blob →
  bd_deleted blob = false →
  fails s (OpBucketGet loc (bd_filename blob)) = None →
  objects s !! (loc, bd_filename blob) = Some o →
  ∃ r, result_of (handleBlobGet request (Bindings env)) s = Ok r ∧
       body r = BodyBytes (slice asked (obj_content o)) ∧
       headers_get (headers r) "Content-Length" = Some (toString (obj_size o)) ∧
       status r = match asked ≫= range_length with
                  | Some l => if (l <? obj_size o)%Z then 206%Z else 200%Z
                  | None => 200%Z
                  end.
Proof.
  intros workspace name loc asked Hm Hmiss Hc Hg Hblob Hdel Hget Ho.
  subst workspace name loc asked. run. oracle. rewrite Hmiss. simpl. oracle.
  rewrite Hblob. simpl. rewrite Hdel. simpl. oracle. rewrite Ho. simpl.
  eexists. split.
  - destruct (Z.eqb _ 200); simpl; [destruct (fails s (OpCachePut _))|]; reflexivity.
  - simpl. repeat split.
    unfold r2MetadataHeaders.
    destruct (obj_httpMetadata o), (range (br_request request)); reflexivity.
Qed.

(** ** The programmatic surface *)

(** The request that [putBlob] hands to the router is a GET of a path under
    [/upload]: no route with a handler takes it. *)
Lemma putBlob_route workspace :
  find_route routes "GET" ("/upload/form-data/" ++ workspace)%string = Some (ToNotFound, []).
Proof. reflexivity. Qed.

(** [putBlob] throws on every input, after no external call, and leaves the
    three stores as they were. *)
Lemma putBlob_never_ingests collaborator workspace name content type s :
  let put := putBlob collaborator workspace name content type in
  result_of put s = Throw "Failed to fetch blob: Not Found" ∧
  trace (after put s) = trace s ++ [Console LevelError "datalake error: Not Found"] ∧
  data (after put s) = data s ∧
  blobs (after put s) = blobs s ∧
  objects (after put s) = objects s.
Proof.
  unfold putBlob, router_fetch, result_of, after, bind. cbv zeta. cbn [pathname method].
  rewrite putBlob_route. done.
Qed.

(** ** Reading *)

(** Case analysis on the innermost scrutinee of the goal. *)
Ltac cases :=
  repeat first
    [ progress oracle
    | match goal with
      | |- context [match ?x with _ => _ end] =>
          lazymatch x with
          | context [match _ with _ => _ end] => fail
          | _ => destruct x eqn:?; simpl
          end
      end ].


(** X2: a GET and a HEAD never write to the metadata store or to the bucket,
    and a HEAD never writes to the cache. *)
Theorem reads_leave_the_stores request env s :
  let get := handleBlobGet request env in
  let head := handleBlobHead request env in
  (data (after get s) = data s ∧ blobs (after get s) = blobs s ∧
   objects (after get s) = objects s) ∧
  same_stores s (after head s).
Proof.
  intros get head. subst get head. unfold same_stores. split.
  - run. destruct env; cases; done.
  - run. destruct env; cases; done.
Qed.

(** X3: the only write of a GET to the cache is the response it returns,
    under the URL of the request, and only when that response is a 200; a 206
    or a 404 leaves the cache as it was. *)
Theorem handleBlobGet_caches_only_full_responses request env s :
  let get := handleBlobGet request env in
  (cache (after get s) = cache s ∨
   ∃ r, result_of get s = Ok r ∧ status r = 200%Z ∧
        cache (after get s) = <[url (br_request request) := r]> (cache s)) ∧
  (∀ r, result_of get s = Ok r → status r ≠ 200%Z → cache (after get s) = cache s).
Proof.
  intros get. subst get. run. destruct env; cases; split;
    try (by left); try (intros; by simplify_eq); try done.
  all: try (right; eexists; repeat split; done).
  all: try (intros r0 Hr0 Hst; simplify_eq; simpl in *; congruence).
Qed.

(** X4: every response that a GET builds from a bucket object carries the
    content security policy that allows nothing and announces byte ranges. *)
Theorem bucket_responses_carry_policy request env s r :
  cache s !! url (br_request request) = None →
  result_of (handleBlobGet request env) s = Ok r →
  status r ≠ 404%Z →
  headers_get (headers r) "Content-Security-Policy" = Some "default-src 'none';" ∧
  headers_get (headers r) "Accept-Ranges" = Some "bytes".
Proof.
  intros Hmiss Hr H404. revert Hr. run. destruct env; cases; intros Hr; simplify_eq;
    try (exfalso; by apply H404).
  all: unfold r2MetadataHeaders; simpl; cases; done.
Qed.

(** X5: for an object that the bucket holds without HTTP metadata, a HEAD
    answers 404 while a GET of the same name serves the object with 200, and
    without a content type. *)
Theorem object_without_metadata env request s blob o :
  let workspace := br_workspace request in
  let name := br_name request in
  quiet s →
  cache s !! url (br_request request) = None →
  blobs s !! (workspace, name) ≫= join_blob (data s) = Some blob →
  bd_deleted blob = false →
  objects s !! (shardOf env workspace, bd_filename blob) = Some o →
  obj_httpMetadata o = None →
  range (br_request request) = None →
  result_of (handleBlobHead request (Bindings env)) s = Ok (error 404 None) ∧
  ∃ r, result_of (handleBlobGet request (Bindings env)) s = Ok r ∧
       status r = 200%Z ∧
       body r = BodyBytes (obj_content o) ∧
       headers_get (headers r) "Content-Type" = None.
Proof.
  intros workspace name Hq Hmiss Hblob Hdel Ho Hhm Hrange. subst workspace name. split.
  - run. oracle. rewrite Hblob. simpl. rewrite Hdel. simpl. oracle. rewrite Ho. simpl.
    by rewrite Hhm.
  - run. oracle. rewrite Hmiss. simpl. oracle. rewrite Hblob. simpl. rewrite Hdel. simpl.
    oracle. rewrite Ho, Hrange. simpl. oracle. eexists. split; [reflexivity|]. simpl.
    unfold r2MetadataHeaders. rewrite Hhm. done.
Qed.

(** X6: for an object with HTTP metadata, a HEAD and a GET without a range
    answer 200 with the same headers; the HEAD has no body and the GET has
    the whole content. *)
Theorem head_mirrors_get env request s blob o hm :
  let workspace := br_workspace request in
  let name := br_name request in
  quiet s →
  cache s !! url (br_request request) = None →
  blobs s !! (workspace, name) ≫= join_blob (data s) = Some blob →
  bd_deleted blob = false →
  objects s !! (shardOf env workspace, bd_filename blob) = Some o →
  obj_httpMetadata o = Some hm →
  range (br_request request) = None →
  result_of (handleBlobHead request (Bindings env)) s
    = Ok (mkResponse 200 (r2MetadataHeaders o) BodyNull) ∧
  result_of (handleBlobGet request (Bindings env)) s
    = Ok (mkResponse 200 (r2MetadataHeaders o) (BodyBytes (obj_content o))).
Proof.
  intros workspace name Hq Hmiss Hblob Hdel Ho Hhm Hrange. subst workspace name. split.
  - run. oracle. rewrite Hblob. simpl. rewrite Hdel. simpl. oracle. rewrite Ho. simpl.
    by rewrite Hhm.
  - run. oracle. rewrite Hmiss. simpl. oracle. rewrite Hblob. simpl. rewrite Hdel. simpl.
    oracle. rewrite Ho, Hrange. simpl. oracle. done.
Qed.

(** ** Deleting *)

(** X7: [handleBlobDelete] never throws: it answers 204, or 500 after
    logging the error, and it writes neither to the data table, nor to the
    bucket, nor to the Blob row of another name. *)
Theorem handleBlobDelete_answers request env s :
  let delete := handleBlobDelete request env in
  (result_of delete s = Ok (mkResponse 204 [] BodyNull) ∨
   result_of delete s = Ok (error 500 None) ∧
   ∃ e, last (trace (after delete s))
          = Some (Console LevelError ("failed to delete blob:" ++ e)%string)) ∧
  data (after delete s) = data s ∧
  objects (after delete s) = objects s ∧
  ∀ k, k ≠ (br_workspace request, br_name request) →
       blobs (after delete s) !! k = blobs s !! k.
Proof.
  intros delete. subst delete. run. destruct env; cases; repeat split;
    try (by left); try (right; split; [done|]; eexists; simpl; by rewrite last_snoc); try done.
  all: intros k Hk; by rewrite lookup_alter_ne.
Qed.

(** ** Uploading *)

(** X8: a form-data upload whose content type is missing or is not
    [multipart/form-data], or whose body does not parse as a form, is
    answered 400 after one logged error, with no external call. *)
Theorem handleUploadFormData_rejects request env s :
  let upload := handleUploadFormData request env in
  (match content_type (wr_request request) with
   | None => True
   | Some contentType => includes "multipart/form-data" contentType = false
   end →
   result_of upload s = Ok (error 400 (Some "expected multipart/form-data")) ∧
   after upload s = emit (Console LevelError "expected multipart/form-data") s) ∧
  (∀ contentType,
     content_type (wr_request request) = Some contentType →
     includes "multipart/form-data" contentType = true →
     (∀ formData, payload (wr_request request) ≠ FormBody formData) →
     result_of upload s = Ok (error 400 (Some "failed to parse form data")) ∧
     after upload s = emit (Console LevelError "failed to parse form data") s).
Proof.
  intros upload. subst upload. unfold handleUploadFormData, result_of, after. split.
  - destruct (content_type (wr_request request)) as [ct|]; [intros ->|intros _]; done.
  - intros ct -> -> Hform. simpl.
    destruct (payload (wr_request request)) as [|formData|m]; [done| |done].
    by destruct (Hform formData).
Qed.

(** ** Reconciling *)

(** X9: when the bucket has no object under the key, or one without HTTP
    metadata, the reconciliation throws [blob not found] after the head
    alone: the metadata store is not called and nothing is written. *)
Theorem handleBlobUploaded_not_found env workspace name filename s :
  let loc := shardOf env workspace in
  let reconcile := handleBlobUploaded (Bindings env) workspace name filename in
  fails s (OpBucketHead loc filename) = None →
  objects s !! (loc, filename) ≫= obj_httpMetadata = None →
  result_of reconcile s = Throw "blob not found" ∧
  after reconcile s = emit (Call (OpBucketHead loc filename)) s.
Proof.
  intros loc reconcile Hh Hnone. subst loc reconcile. run. oracle.
  destruct (objects s !! (shardOf env workspace, filename)) as [o|]; simpl in *; [|done].
  by rewrite Hnone.
Qed.

(** X10: an object with a checksum is adopted where it lies: with no Data row
    under the identifier of its checksum, the reconciliation records one that
    points at the very key of the upload, with the size of the object and its
    content type, or [application/octet-stream] when it has none; the bucket
    is not written and no identifier is drawn. *)
Theorem handleBlobUploaded_adopts_object env workspace name filename s o hm digest :
  let loc := shardOf env workspace in
  let hash := digestToUUID digest in
  let reconcile := handleBlobUploaded (Bindings env) workspace name filename in
  quiet s →
  objects s !! (loc, filename) = Some o →
  obj_httpMetadata o = Some hm →
  obj_md5 o = Some digest →
  lookup_data hash loc (data s) = None →
  result_of reconcile s = Ok tt ∧
  blobs (after reconcile s) = <[(workspace, name) := mkBlob hash loc false]> (blobs s) ∧
  data (after reconcile s) =
    data s ++ [mkData hash loc filename
                 (default "application/octet-stream" (contentType hm)) (obj_size o)] ∧
  objects (after reconcile s) = objects s ∧
  drawn (after reconcile s) = drawn s.
Proof.
  intros loc hash reconcile Hq Ho Hhm Hmd5 Hd. subst loc hash reconcile. run. oracle.
  rewrite Ho. simpl. rewrite Hhm. simpl. rewrite Hmd5. simpl. oracle. done.
Qed.

(** ** Ingesting *)

(** X11: on the small path, once the bytes are in the bucket nothing takes
    them out again: when the transaction that follows the put throws, the
    ingestion throws, the object stays in the bucket under the drawn key, and
    the two tables are as before. *)
Theorem saveBlob_small_orphan env stream size type workspace name lastModified s e :
  let hash := contentHash stream in
  let loc := shardOf env workspace in
  let filename := entropy s (drawn s) in
  let m := saveBlob (Bindings env) stream size type workspace name lastModified in
  (size ≤ hashLimit)%Z →
  fails s (OpGetData hash loc) = None →
  lookup_data hash loc (data s) = None →
  fails s (OpBucketPut loc filename) = None →
  result_of m s = Throw e →
  objects (after m s) = <[(loc, filename) := putObject stream type lastModified s]> (objects s) ∧
  data (after m s) = data s ∧
  blobs (after m s) = blobs s.
Proof.
  intros hash loc filename m Hsize Hg Hd Hp. subst hash loc filename m. run.
  apply Z.leb_le in Hsize. rewrite Hsize. simpl. oracle; intros H; by simplify_eq.
Qed.

(** X12: on the large path the upload comes first, under the drawn key.  When
    the lookup that follows throws, the ingestion throws and the object stays
    in the bucket with no row pointing at it; when nothing throws and the
    content is new, the Data row of the content points at the drawn key and
    the Blob row of the name at the content. *)
Theorem saveBlob_large env stream size type workspace name lastModified s :
  let hash := contentHash stream in
  let loc := shardOf env workspace in
  let filename := entropy s (drawn s) in
  let stored := <[(loc, filename) := putObject stream type lastModified s]> (objects s) in
  let m := saveBlob (Bindings env) stream size type workspace name lastModified in
  (hashLimit < size)%Z →
  (∃ rest, trace (after m s) = trace s ++ Call (OpBucketPut loc filename) :: rest) ∧
  (∀ e, fails s (OpBucketPut loc filename) = None → fails s (OpGetData hash loc) = Some e →
     result_of m s = Throw e ∧ objects (after m s) = stored ∧
     data (after m s) = data s ∧ blobs (after m s) = blobs s) ∧
  (quiet s → lookup_data hash loc (data s) = None →
     result_of m s = Ok (mkBlobMetadata lastModified type size name) ∧
     objects (after m s) = stored ∧
     data (after m s) = data s ++ [mkData hash loc filename type size] ∧
     blobs (after m s) = <[(workspace, name) := mkBlob hash loc false]> (blobs s)).
Proof.
  intros hash loc filename stored m Hsize. subst hash loc filename stored m. run.
  apply Z.leb_gt in Hsize. rewrite Hsize. simpl. split; [|split].
  - oracle; traces.
  - intros e Hp Hg. by oracle.
  - intros Hq Hd. by oracle.
Qed.

(** ** Ingesting, then reading *)

Lemma lookup_data_fresh hash loc table filename type size :
  lookup_data hash loc table = None →
  lookup_data hash loc (table ++ [mkData hash loc filename type size])
    = Some (mkData hash loc filename type size).
Proof.
  unfold lookup_data. induction table as [|d table IH]; simpl.
  - intros _. pose proof (has_key_own (mkData hash loc filename type size)) as Hown.
    simpl in Hown. by rewrite Hown.
  - destruct (has_key hash loc d); [discriminate | exact IH].
Qed.

(** What the ingestion of a new content leaves, when nothing throws. *)
Lemma saveBlob_fresh env stream size type workspace name lastModified s :
  let hash := contentHash stream in
  let loc := shardOf env workspace in
  let filename := entropy s (drawn s) in
  let s' := after (saveBlob (Bindings env) stream size type workspace name lastModified) s in
  quiet s →
  lookup_data hash loc (data s) = None →
  objects s' = <[(loc, filename) := putObject stream type lastModified s]> (objects s) ∧
  data s' = data s ++ [mkData hash loc filename type size] ∧
  blobs s' = <[(workspace, name) := mkBlob hash loc false]> (blobs s) ∧
  cache s' = cache s ∧
  fails s' = fails s.
Proof.
  intros hash loc filename s' Hq Hd. subst hash loc filename s'. run.
  destruct (size <=? hashLimit)%Z; simpl; by oracle.
Qed.

(** What a small-path ingestion of a known content leaves, when nothing
    throws. *)
Lemma saveBlob_small_hit env stream size type workspace name lastModified s d :
  let hash := contentHash stream in
  let loc := shardOf env workspace in
  let s' := after (saveBlob (Bindings env) stream size type workspace name lastModified) s in
  (size ≤ hashLimit)%Z →
  quiet s →
  lookup_data hash loc (data s) = Some d →
  objects s' = objects s ∧
  data s' = data s ∧
  blobs s' = <[(workspace, name) := mkBlob hash loc false]> (blobs s) ∧
  cache s' = cache s ∧
  fails s' = fails s.
Proof.
  intros hash loc s' Hsize Hq Hd. subst hash loc s'. run.
  apply Z.leb_le in Hsize. rewrite Hsize. simpl. by oracle.
Qed.

(** X13: what is ingested is what is served.  After the ingestion of a new
    content, on either path and with nothing throwing, a GET of the name
    without a range that the cache does not answer is a 200 whose body is the
    ingested bytes, whose content type is the declared one and whose
    [Content-Length] is the number of bytes. *)
Theorem ingest_then_get env stream size type workspace name lastModified s request :
  let ingested := after (saveBlob (Bindings env) stream size type workspace name lastModified) s in
  br_workspace request = workspace →
  br_name request = name →
  range (br_request request) = None →
  quiet s →
  lookup_data (contentHash stream) (shardOf env workspace) (data s) = None →
  cache s !! url (br_request request) = None →
  ∃ r, result_of (handleBlobGet request (Bindings env)) ingested = Ok r ∧
       status r = 200%Z ∧
       body r = BodyBytes stream ∧
       headers_get (headers r) "Content-Type" = Some type ∧
       headers_get (headers r) "Content-Length"
         = Some (toString (Z.of_nat (List.length stream))).
Proof.
  intros ingested Hw Hn Hrange Hq Hd Hmiss.
  destruct (saveBlob_fresh env stream size type workspace name lastModified s Hq Hd)
    as (Hobj & Hdata & Hblobs & Hcache & Hfails).
  fold ingested in Hobj, Hdata, Hblobs, Hcache, Hfails. clearbody ingested.
  assert (Hq' : quiet ingested) by (intros op; rewrite Hfails; apply Hq).
  run. rewrite Hw, Hn, Hrange. oracle. rewrite Hcache, Hmiss. simpl. oracle.
  rewrite Hblobs, lookup_insert_eq. simpl. unfold join_blob. simpl.
  rewrite Hdata, (lookup_data_fresh _ _ _ _ _ _ Hd). simpl. oracle.
  rewrite Hobj, lookup_insert_eq. simpl. oracle.
  eexists. split; [reflexivity|]. done.
Qed.

(** X14: the content type belongs to the content, not to the name.  When the
    bytes of a stored content are ingested again on the small path under
    another name and with another declared type, the GET of the new name
    serves the bytes with the content type of the first ingestion. *)
Theorem dedup_keeps_first_content_type env stream size1 size2 type1 type2 workspace
    name1 name2 lm1 lm2 s request :
  let first := saveBlob (Bindings env) stream size1 type1 workspace name1 lm1 in
  let second := saveBlob (Bindings env) stream size2 type2 workspace name2 lm2 in
  let ingested := after second (after first s) in
  (size2 ≤ hashLimit)%Z →
  br_workspace request = workspace →
  br_name request = name2 →
  range (br_request request) = None →
  quiet s →
  lookup_data (contentHash stream) (shardOf env workspace) (data s) = None →
  cache s !! url (br_request request) = None →
  ∃ r, result_of (handleBlobGet request (Bindings env)) ingested = Ok r ∧
       status r = 200%Z ∧
       body r = BodyBytes stream ∧
       headers_get (headers r) "Content-Type" = Some type1.
Proof.
  intros first second ingested Hsize Hw Hn Hrange Hq Hd Hmiss.
  destruct (saveBlob_fresh env stream size1 type1 workspace name1 lm1 s Hq Hd)
    as (Hobj & Hdata & Hblobs & Hcache & Hfails).
  fold first in Hobj, Hdata, Hblobs, Hcache, Hfails.
  assert (Hq1 : quiet (after first s)) by (intros op; rewrite Hfails; apply Hq).
  pose proof (lookup_data_fresh _ _ _ (entropy s (drawn s)) type1 size1 Hd) as Hrow.
  rewrite <- Hdata in Hrow.
  destruct (saveBlob_small_hit env stream size2 type2 workspace name2 lm2 (after first s) _
              Hsize Hq1 Hrow) as (Hobj2 & Hdata2 & Hblobs2 & Hcache2 & Hfails2).
  fold second ingested in Hobj2, Hdata2, Hblobs2, Hcache2, Hfails2.
  assert (Hq2 : quiet ingested) by (intros op; rewrite Hfails2; apply Hq1).
  clearbody ingested. clear Hblobs. set (s1 := after first s) in *. clearbody s1.
  run. rewrite Hw, Hn, Hrange. oracle. rewrite Hcache2, Hcache, Hmiss. simpl. oracle.
  rewrite Hblobs2, lookup_insert_eq. simpl. unfold join_blob. simpl.
  rewrite Hdata2, Hrow. simpl. oracle.
  rewrite Hobj2, Hobj, lookup_insert_eq. simpl. oracle.
  eexists. split; [reflexivity|]. done.
Qed.

(** X15: the last write wins.  After two successful ingestions under one
    name, the Blob row of the name points at the content of the second, the
    Blob rows of other names are as before both, and the data table of the
    first is a prefix of the data table of the second: no Data row is removed
    or rewritten. *)
Theorem reupload_repoints env stream1 stream2 size1 size2 type1 type2 workspace name
    lm1 lm2 s md1 md2 :
  let first := saveBlob (Bindings env) stream1 size1 type1 workspace name lm1 in
  let second := saveBlob (Bindings env) stream2 size2 type2 workspace name lm2 in
  let s2 := after second (after first s) in
  result_of first s = Ok md1 →
  result_of second (after first s) = Ok md2 →
  blobs s2 !! (workspace, name)
    = Some (mkBlob (contentHash stream2) (shardOf env workspace) false) ∧
  (∀ k, k ≠ (workspace, name) → blobs s2 !! k = blobs s !! k) ∧
  ∃ rows, data s2 = data (after first s) ++ rows.
Proof.
  intros first second s2 H1 H2.
  destruct (saveBlob_ok _ _ _ _ _ _ _ _ _ H1) as (_ & Hb1 & _).
  destruct (saveBlob_ok _ _ _ _ _ _ _ _ _ H2) as (_ & Hb2 & Hd2).
  fold first in Hb1. fold second in Hb2, Hd2. fold s2 in Hb2, Hd2.
  split; [|split].
  - rewrite Hb2. apply lookup_insert_eq.
  - intros k Hk. rewrite Hb2, Hb1. by rewrite !lookup_insert_ne.
  - rewrite Hd2. destruct (lookup_data _ _ (data (after first s))); [exists [] | eauto].
    by rewrite app_nil_r.
Qed.

(** X16: the copy to the media collaborator is called only for a file of a
    [video/] type, and only after its ingestion succeeded. *)
Theorem copyVideo_only_after_video_ingestion request env file k s source workspace name :
  let ingest :=
    withPostgres env (saveBlob env (file_content file) (file_size file) (file_type file)
                        (wr_workspace request) (file_name file) (file_lastModified file)) in
  let upload := uploadFile request env (file, k) in
  In (Call (OpCopyVideo source workspace name)) (trace (after upload s)) →
  In (Call (OpCopyVideo source workspace name)) (trace s) ∨
  (String.prefix "video/" (file_type file) = true ∧ ∃ md, result_of ingest s = Ok md).
Proof.
  intros ingest upload.
  assert (Hing : In (Call (OpCopyVideo source workspace name)) (trace (after ingest s)) →
                 In (Call (OpCopyVideo source workspace name)) (trace s)).
  { subst ingest. clear. destruct env as [e| |]; [|done..]. run.
    destruct (file_size file <=? hashLimit)%Z; simpl; cases; members. }
  subst upload. unfold uploadFile, result_of, after in *. fold ingest.
  unfold try_catch, bind, copyVideo, call, console, ret.
  destruct (ingest s) as [[md|e] s1]; simpl in *.
  - destruct (String.prefix "video/" (file_type file)); simpl.
    + intros _. right. eauto.
    + intros H. left. auto.
  - intros H. left. apply Hing. revert H. members.
Qed.

(** ** Routing *)

Lemma append_cons c (a b : string) : (String c a ++ b = String c (a ++ b))%string.
Proof. reflexivity. Qed.

Lemma append_nil (b : string) : (EmptyString ++ b = b)%string.
Proof. reflexivity. Qed.

Lemma append_snoc (a : string) c (b : string) :
  ((a ++ String c EmptyString) ++ b = a ++ String c b)%string.
Proof.
  induction a as [|x a IH]; [done|]. rewrite !append_cons. by f_equal.
Qed.

Lemma append_empty (a : string) : (a ++ EmptyString = a)%string.
Proof. induction a as [|x a IH]; [done|]. rewrite append_cons. by f_equal. Qed.

Lemma segments_from_slash (a : string) : ∀ current rest,
  slashless a = true →
  segments_from current (a ++ String "/" rest)
    = (current ++ a)%string :: segments_from EmptyString rest.
Proof.
  induction a as [|c a IH]; intros current rest Ha.
  - rewrite append_nil, append_empty. reflexivity.
  - simpl in Ha. apply andb_prop in Ha as [Hc Ha]. rewrite append_cons. simpl.
    destruct (Ascii.eqb c "/"); [done|]. by rewrite IH, append_snoc.
Qed.

Lemma segments_from_last (a : string) : ∀ current,
  slashless a = true → segments_from current a = [(current ++ a)%string].
Proof.
  induction a as [|c a IH]; intros current Ha; simpl in *.
  - by rewrite append_empty.
  - apply andb_prop in Ha as [Hc Ha]. destruct (Ascii.eqb c "/"); [done|].
    by rewrite IH, append_snoc.
Qed.

Lemma segment_inv (a : string) :
  segment a = true → String.eqb a EmptyString = false ∧ slashless a = true.
Proof.
  unfold segment. intros H. apply andb_prop in H as [Hne Hs]. split; [|done].
  by destruct (String.eqb a EmptyString).
Qed.

(** The segments of the path of a blob. *)
Lemma blob_path_segments workspace name :
  segment workspace = true → segment name = true →
  segments ("/blob/" ++ workspace ++ "/" ++ name)%string
    = [EmptyString; "blob"; workspace; name].
Proof.
  intros [_ Hw]%segment_inv [_ Hn]%segment_inv. unfold segments.
  repeat (rewrite append_cons || rewrite append_nil). simpl.
  repeat (rewrite append_cons || rewrite append_nil).
  rewrite (segments_from_slash workspace EmptyString name Hw).
  by rewrite (segments_from_last name EmptyString Hn).
Qed.



(** X19: a POST of [/upload/form-data/] and a workspace that is a path
    segment runs [handleUploadFormData] on the decoded workspace. *)
Theorem upload_path_routes collaborator env request workspace workspace' :
  segment workspace = true →
  decodeURIComponent workspace = Some workspace' →
  method request = "POST" →
  pathname request = ("/upload/form-data/" ++ workspace)%string →
  router_fetch collaborator request env
    = handleUploadFormData (mkWorkspaceRequest request workspace') env.
Proof.
  intros [Hne Hw]%segment_inv Hd Hm Hpath.
  assert (Hsegs : segments (pathname request) = [EmptyString; "upload"; "form-data"; workspace]).
  { rewrite Hpath. unfold segments.
    repeat (rewrite append_cons || rewrite append_nil). simpl.
    repeat (rewrite append_cons || rewrite append_nil).
    by rewrite (segments_from_last workspace EmptyString Hw). }
  unfold router_fetch. rewrite Hm. simpl. unfold match_route. rewrite Hsegs. simpl.
  rewrite Hne. simpl. unfold withWorkspace, param. simpl.
  destruct workspace; [done|]. rewrite Hd. reflexivity.
Qed.

(** X20: an escape in the path that does not decode makes the worker answer
    500: [withBlob] lets the error of [decodeURIComponent] through and
    [fetch] turns it into the response, before any handler runs. *)
Theorem malformed_escape_is_500 collaborator env request workspace name s :
  segment workspace = true →
  segment name = true →
  method request = "GET" ∨ method request = "HEAD" ∨ method request = "DELETE" →
  pathname request = ("/blob/" ++ workspace ++ "/" ++ name)%string →
  decodeURIComponent workspace = None ∨ decodeURIComponent name = None →
  ∃ r, result_of (fetch collaborator env request) s = Ok r ∧
       status r = 500%Z ∧
       after (fetch collaborator env request) s = s.
Proof.
  intros Hw Hn Hm Hpath Hdec.
  pose proof (blob_path_segments workspace name Hw Hn) as Hsegs.
  apply segment_inv in Hw as [Hw _]. apply segment_inv in Hn as [Hn _].
  unfold fetch, router_fetch, result_of, after, try_catch.
  destruct Hm as [Hm|[Hm|Hm]]; rewrite Hm, Hpath; simpl;
    unfold match_route; rewrite Hsegs; simpl; rewrite Hw, Hn; simpl;
    unfold viaBlob, withBlob, param, bind; simpl;
    (destruct workspace; [done|]); (destruct name; [done|]);
    destruct Hdec as [Hdec|Hdec]; rewrite Hdec; simpl;
    repeat match goal with
           | |- context [decodeURIComponent ?x] => destruct (decodeURIComponent x); simpl
           end;
    eexists; done.
Qed.

Lemma find_route_skip r rest m path :
  String.eqb (route_method r) m = false →
  String.eqb (route_method r) "ALL" = false →
  find_route (r :: rest) m path = find_route rest m path.
Proof. intros H1 H2. cbn [find_route]. by rewrite H1, H2. Qed.

(** X21: no route lists PATCH or any other method besides GET, HEAD, DELETE,
    POST and PUT: such a request, when it is not the OPTIONS of a preflight,
    is answered with the banner on the root path and with 404 on every other
    path. *)
Theorem unlisted_method collaborator env request :
  method request ∉ ["GET"; "HEAD"; "DELETE"; "POST"; "PUT"; "OPTIONS"] →
  router_fetch collaborator request env
    = match match_route [] (pathname request) with
      | Some _ => ret (html banner)
      | None => ret (error 404 None)
      end.
Proof.
  intros Hm.
  assert (Hne : ∀ m, m ∈ ["GET"; "HEAD"; "DELETE"; "POST"; "PUT"] →
                     String.eqb m (method request) = false).
  { intros m Hin. apply String.eqb_neq. intros ->. apply Hm.
    rewrite !elem_of_cons in Hin. rewrite !elem_of_cons. tauto. }
  assert (Hfind : find_route routes (method request) (pathname request)
                  = match match_route [] (pathname request) with
                    | Some params => Some (ToBanner, params)
                    | None => Some (ToNotFound, [])
                    end).
  { unfold routes.
    repeat (rewrite find_route_skip;
            [| apply Hne; cbn [route_method]; repeat constructor | reflexivity]).
    cbn [find_route route_method route_path route_target].
    rewrite orb_true_r. by destruct (match_route [] (pathname request)). }
  unfold router_fetch. rewrite Hfind. by destruct (match_route [] (pathname request)).
Qed.

(** ** Range headers *)


End Properties.

(** * The properties on the concrete deployment *)

Section Examples.
Import Demo.
Existing Instance runtime.

(** The example of the spec: the same ten bytes as [a.txt] and as [b.txt]. *)
Lemma saveBlob_twice_witness :
  let first := saveBlob (Bindings env) hello 10 "text/plain" "ws" "a.txt" 7 in
  let second := saveBlob (Bindings env) hello 10 "text/plain" "ws" "b.txt" 8 in
  let s2 := after second (after first world0) in
  blobs s2 !! ("ws", "a.txt") = Some (mkBlob "hello-huly" "weur" false) ∧
  blobs s2 !! ("ws", "b.txt") = Some (mkBlob "hello-huly" "weur" false) ∧
  List.length (rows_of "hello-huly" "weur" (data s2)) = 1%nat ∧
  data s2 = data (after first world0).
Proof.
  assert (Hne : "a.txt" ≠ "b.txt") by discriminate.
  assert (Hpk : primary_key (data world0)) by (intros h l; simpl; lia).
  exact (saveBlob_twice (rt := runtime) env hello 10 10 "text/plain" "text/plain" "ws" "a.txt" "b.txt" 7 8
           world0 (mkBlobMetadata 7 "text/plain" 10 "a.txt")
           (mkBlobMetadata 8 "text/plain" 10 "b.txt") Hne Hpk eq_refl eq_refl).
Defined.


Lemma handleBlobUploaded_without_checksum_witness :
  let m := handleBlobUploaded (Bindings env) "ws" "a.txt" "up-1" in
  result_of m outOfBand = Ok tt ∧
  blobs (after m outOfBand) !! ("ws", "a.txt") = Some (mkBlob "file-0" "weur" false) ∧
  data (after m outOfBand) = [] ++ [mkData "file-0" "weur" "up-1" "text/plain" 10].
Proof.
  apply (handleBlobUploaded_without_checksum (rt := runtime) env "ws" "a.txt" "up-1" outOfBand uploadedObject
           (mkHTTPMetadata (Some "text/plain") None None));
    [vm_compute; reflexivity | reflexivity | reflexivity | intros op; reflexivity | reflexivity].
Defined.

(** C1, as stated, fails: the object has no checksum, the reconciliation
    succeeds, and the Data row it records is keyed by the identifier that
    [crypto.randomUUID] handed out. *)
Lemma reconcile_without_checksum_records_random_identity :
  let m := handleBlobUploaded (Bindings env) "ws" "a.txt" "up-1" in
  (objects outOfBand !! ("weur", "up-1") ≫= obj_md5) = None ∧
  entropy outOfBand (drawn outOfBand) = "file-0" ∧
  result_of m outOfBand = Ok tt ∧
  data (after m outOfBand) = [mkData "file-0" "weur" "up-1" "text/plain" 10] ∧
  blobs (after m outOfBand) !! ("ws", "a.txt") = Some (mkBlob "file-0" "weur" false).
Proof. vm_compute. done. Qed.




(** The batch in which the pointer of [bad.txt] is refused: its entry is the
    error, the entry of its sibling is the metadata, and the sibling is
    stored. *)
Lemma batch_with_one_failure :
  let upload :=
    handleUploadFormData (mkWorkspaceRequest (formRequest batch) "ws") (Bindings env) in
  result_of upload oneFails =
    Ok (json [ mkUploadResult "first" (OutError "db: write failed");
               mkUploadResult "second"
                 (OutMetadata (mkBlobMetadata 7 "text/plain" 21 "good.txt")) ]) ∧
  blobs (after upload oneFails) !! ("ws", "bad.txt") = None ∧
  blobs (after upload oneFails) !! ("ws", "good.txt")
    = Some (mkBlob "hello-huly-hello-huly" "weur" false).
Proof. vm_compute. done. Qed.

Lemma uploadFile_video_witness :
  let upload := uploadFile (mkWorkspaceRequest (formRequest []) "ws") (Bindings env) (clip, "file") in
  In (Call (OpCopyVideo "https://datalake/blob/ws/clip.mp4" "ws" "clip.mp4"))
     (trace (after upload copyFails)) ∧
  result_of upload copyFails = Ok (mkUploadResult "file" (OutError "stream: copy failed")).
Proof.
  destruct (uploadFile_video (rt := runtime) (mkWorkspaceRequest (formRequest []) "ws") (Bindings env) clip "file"
              copyFails (mkBlobMetadata 7 "video/mp4" 10 "clip.mp4") eq_refl eq_refl)
    as (Hin & _ & _ & _ & Hthrow).
  split; [exact Hin | exact (Hthrow _ eq_refl)].
Defined.

(** C7, as stated, fails: the clip is ingested and its rows are written, the
    copy to the media collaborator throws, and the entry of the file in the
    response is the error of the copy, not the metadata. *)
Lemma copy_failure_is_reported_as_error :
  let upload := http (formRequest [("file", FormFile clip)]) in
  String.prefix "video/" (file_type clip) = true ∧
  result_of upload copyFails
    = Ok (json [mkUploadResult "file" (OutError "stream: copy failed")]) ∧
  blobs (after upload copyFails) !! ("ws", "clip.mp4") = Some (mkBlob "hello-huly" "weur" false) ∧
  data (after upload copyFails) = [mkData "hello-huly" "weur" "file-0" "video/mp4" 10].
Proof. vm_compute. done. Qed.

Lemma handleBlobDelete_unknown_name_witness :
  blobs world0 !! ("ws", "nothing.txt") = None ∧
  result_of (handleBlobDelete (blobRequest "DELETE" "nothing.txt" None) (Bindings env)) world0
    = Ok (mkResponse 204 [] BodyNull).
Proof.
  split; [reflexivity|].
  apply (handleBlobDelete_unknown_name env (blobRequest "DELETE" "nothing.txt" None) world0);
    reflexivity.
Defined.



(** C3: a GET of [bytes=0-99] on the 1000-byte object answers 206 with the
    hundred bytes and [Content-Range: bytes 0-99/1000], and its
    [Content-Length] header is 1000, the size of the whole object, where the
    specification asks for 100, the bytes served. *)
Theorem range_response_content_length :
  let get :=
    handleBlobGet (blobRequest "GET" "big.bin" (Some (RangeOffset 0 (Some 100%Z))))
      (Bindings env) in
  ∃ r, result_of get stored1000 = Ok r ∧
       status r = 206%Z ∧
       headers_get (headers r) "Content-Range" = Some "bytes 0-99/1000" ∧
       body r = BodyBytes (repeat Byte.x61 100) ∧
       headers_get (headers r) "Content-Length" = Some "1000".
Proof. eexists. split; [vm_compute; reflexivity|]. vm_compute. done. Qed.

(** C9: posting the file to [/upload/form-data/ws] stores [a.txt], and a GET
    of [/blob/ws/a.txt] then serves its bytes; [putBlob] of the same file
    throws and stores nothing, and [getBlob] of the stored name throws. *)
Theorem putBlob_does_not_ingest :
  let post :=
    http (formRequest [("file", FormFile (mkFile "a.txt" "text/plain" 1700000000 hello))]) in
  let put := putBlob no_handler "ws" "a.txt" hello "text/plain" in
  let get := http (mkRequest "GET" "https://datalake" "/blob/ws/a.txt" None None NoBody) in
  (result_of post world0 =
     Ok (json [mkUploadResult "file"
                 (OutMetadata (mkBlobMetadata 1700000000 "text/plain" 10 "a.txt"))]) ∧
   blobs (after post world0) !! ("ws", "a.txt") = Some (mkBlob "hello-huly" "weur" false)) ∧
  (result_of put world0 = Throw "Failed to fetch blob: Not Found" ∧
   blobs (after put world0) !! ("ws", "a.txt") = None ∧
   data (after put world0) = []) ∧
  ((∃ r, result_of get (after post world0) = Ok r ∧ status r = 200%Z ∧ body r = BodyBytes hello) ∧
   result_of (getBlob no_handler "ws" "a.txt") (after post world0)
     = Throw "TypeError: Cannot read properties of undefined").
Proof.
  split; [vm_compute; done|]. split; [vm_compute; done|]. split; [|vm_compute; done].
  eexists. vm_compute. done.
Qed.

(** ** Further properties on the concrete deployment *)


Lemma handleBlobGet_caches_only_full_responses_witness :
  let get :=
    handleBlobGet (blobRequest "GET" "big.bin" (Some (RangeOffset 0 (Some 100%Z))))
      (Bindings env) in
  cache (after get stored1000) = cache stored1000.
Proof.
  pose (get := handleBlobGet (blobRequest "GET" "big.bin" (Some (RangeOffset 0 (Some 100%Z))))
                 (Bindings env)).
  pose (r := match result_of get stored1000 with Ok r => r | Throw _ => error 500 None end).
  assert (Hr : result_of get stored1000 = Ok r) by (vm_compute; reflexivity).
  assert (Hst : status r ≠ 200%Z) by (vm_compute; discriminate).
  destruct (handleBlobGet_caches_only_full_responses (rt := runtime)
              (blobRequest "GET" "big.bin" (Some (RangeOffset 0 (Some 100%Z)))) (Bindings env)
              stored1000) as [_ Hpartial].
  exact (Hpartial r Hr Hst).
Defined.

Lemma bucket_responses_carry_policy_witness :
  headers_get (headers cachedHello) "Content-Security-Policy" = Some "default-src 'none';" ∧
  headers_get (headers cachedHello) "Accept-Ranges" = Some "bytes".
Proof.
  assert (Hr : result_of (handleBlobGet (blobRequest "GET" "a.txt" None) (Bindings env)) posted
               = Ok cachedHello) by (vm_compute; reflexivity).
  assert (Hst : status cachedHello ≠ 404%Z) by (vm_compute; discriminate).
  exact (bucket_responses_carry_policy (rt := runtime) (blobRequest "GET" "a.txt" None)
           (Bindings env) posted cachedHello eq_refl Hr Hst).
Defined.

Lemma object_without_metadata_witness :
  result_of (handleBlobHead (blobRequest "HEAD" "bare.bin" None) (Bindings env)) bare
    = Ok (error 404 None) ∧
  ∃ r, result_of (handleBlobGet (blobRequest "HEAD" "bare.bin" None) (Bindings env)) bare
       = Ok r ∧
       status r = 200%Z ∧
       body r = BodyBytes hello ∧
       headers_get (headers r) "Content-Type" = None.
Proof.
  exact (object_without_metadata (rt := runtime) env (blobRequest "HEAD" "bare.bin" None) bare
           (mkBlobWithData "digest-1" "weur" false "key-1" 10 "text/plain")
           (mkObject 10 None 1700000000 "etag-3" None hello)
           (fun op => eq_refl) eq_refl eq_refl eq_refl eq_refl eq_refl eq_refl).
Defined.

Lemma head_mirrors_get_witness :
  result_of (handleBlobHead (blobRequest "GET" "a.txt" None) (Bindings env)) posted
    = Ok (mkResponse 200 (headers cachedHello) BodyNull) ∧
  result_of (handleBlobGet (blobRequest "GET" "a.txt" None) (Bindings env)) posted
    = Ok cachedHello.
Proof.
  assert (Hq : quiet posted) by (intros op; reflexivity).
  assert (Hblob : blobs posted !! ("ws", "a.txt") ≫= join_blob (data posted)
                  = Some (mkBlobWithData "hello-huly" "weur" false "file-0" 10 "text/plain"))
    by (vm_compute; reflexivity).
  assert (Ho : objects posted !! ("weur", "file-0") = Some (putObject hello "text/plain" 7 world0))
    by (vm_compute; reflexivity).
  exact (head_mirrors_get (rt := runtime) env (blobRequest "GET" "a.txt" None) posted _ _
           (mkHTTPMetadata (Some "text/plain") (Some defaultCacheControl) (Some 7%Z))
           Hq eq_refl Hblob eq_refl Ho eq_refl eq_refl).
Defined.

Lemma handleBlobDelete_answers_witness :
  let delete := handleBlobDelete (blobRequest "DELETE" "a.txt" None) Undefined in
  result_of delete posted = Ok (error 500 None) ∧
  data (after delete posted) = data posted ∧
  blobs (after delete posted) !! ("ws", "other.txt") = blobs posted !! ("ws", "other.txt").
Proof.
  destruct (handleBlobDelete_answers (blobRequest "DELETE" "a.txt" None) Undefined posted)
    as ([H204 | [H500 _]] & Hdata & _ & Hother).
  - discriminate H204.
  - split; [exact H500|]. split; [exact Hdata|]. apply Hother. discriminate.
Defined.

Lemma handleUploadFormData_rejects_witness :
  let json := mkWorkspaceRequest
                (mkRequest "POST" "https://datalake" "/upload/form-data/ws" None
                   (Some "application/json") NoBody) "ws" in
  let empty := mkWorkspaceRequest
                 (mkRequest "POST" "https://datalake" "/upload/form-data/ws" None
                    (Some "multipart/form-data; boundary=x") NoBody) "ws" in
  result_of (handleUploadFormData json (Bindings env)) world0
    = Ok (error 400 (Some "expected multipart/form-data")) ∧
  result_of (handleUploadFormData empty (Bindings env)) world0
    = Ok (error 400 (Some "failed to parse form data")).
Proof.
  intros json empty.
  destruct (handleUploadFormData_rejects (rt := runtime) json (Bindings env) world0)
    as [Htype _].
  destruct (handleUploadFormData_rejects (rt := runtime) empty (Bindings env) world0)
    as [_ Hbody].
  split.
  - exact (proj1 (Htype eq_refl)).
  - refine (proj1 (Hbody "multipart/form-data; boundary=x" eq_refl eq_refl _)).
    intros formData. discriminate.
Defined.

Lemma handleBlobUploaded_not_found_witness :
  let reconcile := handleBlobUploaded (Bindings env) "ws" "a.txt" "up-9" in
  result_of reconcile world0 = Throw "blob not found" ∧
  after reconcile world0 = emit (Call (OpBucketHead "weur" "up-9")) world0.
Proof.
  exact (handleBlobUploaded_not_found (rt := runtime) env "ws" "a.txt" "up-9" world0
           eq_refl eq_refl).
Defined.

Lemma handleBlobUploaded_adopts_object_witness :
  let reconcile := handleBlobUploaded (Bindings env) "ws" "c.txt" "up-3" in
  result_of reconcile withChecksum = Ok tt ∧
  data (after reconcile withChecksum)
    = [mkData "hello-huly-hello-huly" "weur" "up-3" "text/plain" 21] ∧
  drawn (after reconcile withChecksum) = drawn withChecksum.
Proof.
  assert (Ho : objects withChecksum !! ("weur", "up-3") = Some reconciledObject)
    by (vm_compute; reflexivity).
  destruct (handleBlobUploaded_adopts_object (rt := runtime) env "ws" "c.txt" "up-3"
              withChecksum reconciledObject (mkHTTPMetadata (Some "text/plain") None None)
              twenty (fun op => eq_refl) Ho eq_refl eq_refl eq_refl)
    as (Hres & _ & Hdata & _ & Hdrawn).
  split; [exact Hres|]. split; [exact Hdata | exact Hdrawn].
Defined.

Lemma saveBlob_small_orphan_witness :
  let m := saveBlob (Bindings env) hello 10 "text/plain" "ws" "a.txt" 7 in
  result_of m commitFails = Throw "db: commit failed" ∧
  is_Some (objects (after m commitFails) !! ("weur", "file-0")) ∧
  data (after m commitFails) = [] ∧
  blobs (after m commitFails) = blobs commitFails.
Proof.
  assert (Hsize : (10 ≤ hashLimit)%Z) by (simpl; lia).
  assert (Hthrow : result_of (saveBlob (Bindings env) hello 10 "text/plain" "ws" "a.txt" 7)
                     commitFails = Throw "db: commit failed") by (vm_compute; reflexivity).
  destruct (saveBlob_small_orphan (rt := runtime) env hello 10 "text/plain" "ws" "a.txt" 7
              commitFails "db: commit failed" Hsize eq_refl eq_refl eq_refl Hthrow)
    as (Hobj & Hdata & Hblobs).
  split; [exact Hthrow|]. split; [|split; [exact Hdata | exact Hblobs]].
  rewrite Hobj, lookup_insert_eq. eauto.
Defined.

Lemma saveBlob_large_witness :
  let m := saveBlob (Bindings env) twenty 21 "text/plain" "ws" "a.txt" 7 in
  (result_of m lookupFails = Throw "db: read failed" ∧
   is_Some (objects (after m lookupFails) !! ("weur", "file-0")) ∧
   data (after m lookupFails) = []) ∧
  (result_of m world0 = Ok (mkBlobMetadata 7 "text/plain" 21 "a.txt") ∧
   data (after m world0) = [mkData "hello-huly-hello-huly" "weur" "file-0" "text/plain" 21]).
Proof.
  assert (Hsize : (hashLimit < 21)%Z) by (simpl; lia).
  destruct (saveBlob_large (rt := runtime) env twenty 21 "text/plain" "ws" "a.txt" 7
              lookupFails Hsize) as (_ & Horphan & _).
  destruct (Horphan "db: read failed" eq_refl eq_refl) as (Hthrow & Hobj & Hdata & _).
  destruct (saveBlob_large (rt := runtime) env twenty 21 "text/plain" "ws" "a.txt" 7
              world0 Hsize) as (_ & _ & Hfresh).
  destruct (Hfresh (fun op => eq_refl) eq_refl) as (Hok & _ & Hrow & _).
  split; [|split; [exact Hok | exact Hrow]].
  split; [exact Hthrow|]. split; [|exact Hdata].
  rewrite Hobj, lookup_insert_eq. eauto.
Defined.

Lemma ingest_then_get_witness :
  let ingested := after (saveBlob (Bindings env) twenty 21 "text/plain" "ws" "a.txt" 7) world0 in
  ∃ r, result_of (handleBlobGet (blobRequest "GET" "a.txt" None) (Bindings env)) ingested = Ok r ∧
       status r = 200%Z ∧
       body r = BodyBytes twenty ∧
       headers_get (headers r) "Content-Type" = Some "text/plain" ∧
       headers_get (headers r) "Content-Length" = Some (toString 21).
Proof.
  exact (ingest_then_get (rt := runtime) env twenty 21 "text/plain" "ws" "a.txt" 7 world0
           (blobRequest "GET" "a.txt" None) eq_refl eq_refl eq_refl (fun op => eq_refl)
           eq_refl eq_refl).
Defined.

Lemma dedup_keeps_first_content_type_witness :
  let first := saveBlob (Bindings env) hello 10 "text/plain" "ws" "a.txt" 7 in
  let second := saveBlob (Bindings env) hello 10 "image/png" "ws" "b.png" 8 in
  ∃ r, result_of (handleBlobGet (blobRequest "GET" "b.png" None) (Bindings env))
         (after second (after first world0)) = Ok r ∧
       status r = 200%Z ∧
       body r = BodyBytes hello ∧
       headers_get (headers r) "Content-Type" = Some "text/plain".
Proof.
  assert (Hsize : (10 ≤ hashLimit)%Z) by (simpl; lia).
  exact (dedup_keeps_first_content_type (rt := runtime) env hello 10 10 "text/plain" "image/png"
           "ws" "a.txt" "b.png" 7 8 world0 (blobRequest "GET" "b.png" None) Hsize
           eq_refl eq_refl eq_refl (fun op => eq_refl) eq_refl eq_refl).
Defined.

Lemma reupload_repoints_witness :
  let first := saveBlob (Bindings env) hello 10 "text/plain" "ws" "a.txt" 7 in
  let second := saveBlob (Bindings env) twenty 21 "text/plain" "ws" "a.txt" 8 in
  let s2 := after second (after first world0) in
  blobs s2 !! ("ws", "a.txt") = Some (mkBlob "hello-huly-hello-huly" "weur" false) ∧
  (∀ k, k ≠ ("ws", "a.txt") → blobs s2 !! k = blobs world0 !! k) ∧
  ∃ rows, data s2 = data (after first world0) ++ rows.
Proof.
  exact (reupload_repoints (rt := runtime) env hello twenty 10 21 "text/plain" "text/plain"
           "ws" "a.txt" 7 8 world0 (mkBlobMetadata 7 "text/plain" 10 "a.txt")
           (mkBlobMetadata 8 "text/plain" 21 "a.txt") eq_refl eq_refl).
Defined.

Lemma copyVideo_only_after_video_ingestion_witness :
  String.prefix "video/" (file_type clip) = true ∧
  ∃ md, result_of (withPostgres (Bindings env)
                     (saveBlob (Bindings env) hello 10 "video/mp4" "ws" "clip.mp4" 7)) world0
        = Ok md.
Proof.
  pose (request := mkWorkspaceRequest (formRequest []) "ws").
  assert (Hin : In (Call (OpCopyVideo "https://datalake/blob/ws/clip.mp4" "ws" "clip.mp4"))
                   (trace (after (uploadFile request (Bindings env) (clip, "file")) world0))).
  { vm_compute. repeat (try (left; reflexivity); right). }
  destruct (copyVideo_only_after_video_ingestion (rt := runtime) request (Bindings env) clip
              "file" world0 _ _ _ Hin) as [Hold | Hnew].
  - destruct Hold.
  - exact Hnew.
Defined.



Lemma upload_path_routes_witness :
  router_fetch no_handler (formRequest batch) (Bindings env)
    = handleUploadFormData (mkWorkspaceRequest (formRequest batch) "ws") (Bindings env).
Proof.
  exact (upload_path_routes (rt := runtime) no_handler (Bindings env) (formRequest batch)
           "ws" "ws" eq_refl eq_refl eq_refl eq_refl).
Defined.

Lemma malformed_escape_is_500_witness :
  let request := plainRequest "GET" "/blob/ws/a%zz" in
  ∃ r, result_of (@fetch strict no_handler env request) posted = Ok r ∧
       status r = 500%Z ∧
       after (@fetch strict no_handler env request) posted = posted.
Proof.
  exact (malformed_escape_is_500 (rt := strict) no_handler env
           (plainRequest "GET" "/blob/ws/a%zz") "ws" "a%zz" posted
           eq_refl eq_refl (or_introl eq_refl) eq_refl (or_intror eq_refl)).
Defined.

Lemma unlisted_method_witness :
  router_fetch no_handler (plainRequest "PATCH" "/blob/ws/a.txt") (Bindings env)
    = ret (error 404 None).
Proof.
  assert (Hm : method (plainRequest "PATCH" "/blob/ws/a.txt")
               ∉ ["GET"; "HEAD"; "DELETE"; "POST"; "PUT"; "OPTIONS"]).
  { intros Hin. repeat (apply elem_of_cons in Hin as [Hin|Hin]; [discriminate Hin|]).
    by apply elem_of_nil in Hin. }
  exact (unlisted_method (rt := runtime) no_handler (Bindings env)
           (plainRequest "PATCH" "/blob/ws/a.txt") Hm).
Defined.

End Examples.
